(** * Telemetry and health monitoring of the Yellowstone gRPC indexer

    A shallow embedding of [src/monitoring/monitor.ts] (class
    [PerformanceMonitor]) together with the declarations it reads from
    [src/monitoring/types.ts] and [src/config/tokens.ts], followed by the
    properties of the timer registry, the metrics aggregator and the health
    classifier. The lookup helpers of [src/config/tokens.ts], the monitor
    singleton and the queries of the dashboard (class
    [PerformanceDashboard]) are embedded as well, with their properties in
    the second part.

    Modelling conventions.
    - A JavaScript [number] is an IEEE-754 binary64 value, i.e. a primitive
      [float]: division by zero yields an infinity or NaN, NaN compares
      false with everything, and [x++] is [x + 1].
    - A [Date] is represented by its epoch timestamp in milliseconds.
    - Reads of the process environment ([Date.now()], [performance.now()],
      [process.memoryUsage()], [process.cpuUsage()]) are inputs of the call
      that performs them, gathered in the record [Env]; a call that reads
      a clock more than once is given one reading.
    - The [tokenMetrics] object is a heap object: a [PerformanceMetrics]
      record holds a reference to it, so that the object spread in
      [getMetrics] copies the reference and not the table.
    - The [tokenMetrics] object is created by an object literal, so a read
      [tokenMetrics[name]] that finds no own property continues in
      [Object.prototype]. The built-in objects such a read reaches are part
      of the state, with the properties that [recordTokenActivity] can
      write on them; they carry none of these properties when the monitor
      is constructed, no other code of the repository writing on them.
    - The strings pushed on the [issues] array are represented by a
      constructor per message carrying the interpolated number. *)

From Stdlib Require Import Floats ZArith Uint63 List.
From stdpp Require Import base option strings gmap.

Set Default Proof Using "Type".

(** ** JavaScript numbers *)

Abbreviation number := float.
Abbreviation Date := float.

Module JS.

(** [x > y] *)
Definition gt (x y : number) : bool := PrimFloat.ltb y x.

(** [x === y] on numbers *)
Definition strict_eq (x y : number) : bool := PrimFloat.eqb x y.

(** [x < y] *)
Definition lt (x y : number) : bool := PrimFloat.ltb x y.

(** [ToBoolean(x)]: a number is falsy when it is [+0], [-0] or [NaN]. *)
Definition truthy (x : number) : bool :=
  negb (PrimFloat.eqb x 0 || PrimFloat.is_nan x).

(** [x++] (the stored value) *)
Definition incr (x : number) : number := (x + 1)%float.

(** [ToNumber(x)] for [x] a number or [undefined] ([None]). *)
Definition ToNumber (x : option number) : number :=
  match x with
  | Some x => x
  | None => nan
  end.

End JS.

(** ** [src/config/tokens.ts] *)

Module Tokens.

Record TokenConfig := {
  mintAddress : string;
  symbol : string;
  name : string;
  decimals : number;
  enabled : bool;
  alertThreshold : option number
}.

(** The record literal, as its list of entries in insertion order. *)
Definition SUPPORTED_TOKENS : list (string * TokenConfig) :=
  [ ("USDC",
     {| mintAddress := "EPjFWdd5AufqSSqeM2qN1xzybapC8G4wEGGkZwyTDt1v";
        symbol := "USDC"; name := "USD Coin"; decimals := 6%float;
        enabled := true; alertThreshold := Some 10000%float |});
    ("USDT",
     {| mintAddress := "Es9vMFrzaCERmJfrF4H2FYD4KCoNkY11McCe8BenwNYB";
        symbol := "USDT"; name := "Tether USD"; decimals := 6%float;
        enabled := true; alertThreshold := Some 10000%float |});
    ("SOL",
     {| mintAddress := "So11111111111111111111111111111111111111112";
        symbol := "SOL"; name := "Solana"; decimals := 9%float;
        enabled := true; alertThreshold := Some 100%float |});
    ("BONK",
     {| mintAddress := "DezXAZ8z7PnrnRJjz3wXBoRgixCa6xjnB7YaB1pPB263";
        symbol := "BONK"; name := "Bonk"; decimals := 5%float;
        enabled := true; alertThreshold := Some 1000000%float |});
    ("JUP",
     {| mintAddress := "JUPyiwrYJFskUPiHa7hkeR8VUtAeFoSYbKedZNsDvCN";
        symbol := "JUP"; name := "Jupiter"; decimals := 6%float;
        enabled := true; alertThreshold := Some 10000%float |}) ].

(** [Object.values(SUPPORTED_TOKENS)] *)
Definition values : list TokenConfig := map snd SUPPORTED_TOKENS.

(** The symbols of the configured tokens. *)
Definition symbols : list string := map symbol values.

End Tokens.

(** ** [src/monitoring/types.ts] *)

Definition loc := positive.

Record MemoryUsage := {
  rss : number;
  heapTotal : number;
  heapUsed : number;
  external : number;
  arrayBuffers : number
}.

Record CpuUsage := {
  user : number;
  system : number
}.

#[projections(primitive)]
Record TokenMetrics := {
  symbol : string;
  accountUpdates : number;
  transactions : number;
  averageTransactionSize : number;
  largestTransaction : number;
  lastActivity : Date
}.

(** [Record<string, TokenMetrics>]: the own properties of the table. *)
Abbreviation TokenTable := (gmap string TokenMetrics).

(** ** The built-in objects behind the token table

    The five properties that [recordTokenActivity] writes, as own
    properties of an object that is not a [TokenMetrics] literal: each is
    present or absent. *)

Module Bag.

Record t := {
  lastActivity : option Date;
  accountUpdates : option number;
  transactions : option number;
  averageTransactionSize : option number;
  largestTransaction : option number
}.

Definition empty : t :=
  {| lastActivity := None;
     accountUpdates := None;
     transactions := None;
     averageTransactionSize := None;
     largestTransaction := None |}.

Definition set_lastActivity (v : Date) (b : t) : t :=
  {| lastActivity := Some v;
     accountUpdates := accountUpdates b;
     transactions := transactions b;
     averageTransactionSize := averageTransactionSize b;
     largestTransaction := largestTransaction b |}.

Definition set_accountUpdates (v : number) (b : t) : t :=
  {| lastActivity := lastActivity b;
     accountUpdates := Some v;
     transactions := transactions b;
     averageTransactionSize := averageTransactionSize b;
     largestTransaction := largestTransaction b |}.

Definition set_transactions (v : number) (b : t) : t :=
  {| lastActivity := lastActivity b;
     accountUpdates := accountUpdates b;
     transactions := Some v;
     averageTransactionSize := averageTransactionSize b;
     largestTransaction := largestTransaction b |}.

Definition set_averageTransactionSize (v : number) (b : t) : t :=
  {| lastActivity := lastActivity b;
     accountUpdates := accountUpdates b;
     transactions := transactions b;
     averageTransactionSize := Some v;
     largestTransaction := largestTransaction b |}.

Definition set_largestTransaction (v : number) (b : t) : t :=
  {| lastActivity := lastActivity b;
     accountUpdates := accountUpdates b;
     transactions := transactions b;
     averageTransactionSize := averageTransactionSize b;
     largestTransaction := Some v |}.

End Bag.

(** The objects other than token entries that [tokenMetrics[name]] can
    evaluate to: [Object.prototype] itself (under the name [__proto__]),
    the function that [Object.prototype] holds under [name], and the [Date]
    that an earlier call has stored in [Object.prototype.lastActivity]. *)
Inductive BuiltinObject :=
  | ObjectPrototype
  | ObjectPrototypeMethod (name : string)
  | InheritedDate.

#[global] Instance BuiltinObject_eq_dec : EqDecision BuiltinObject.
Proof. solve_decision. Defined.

(** The own properties of these objects. A function without an entry has
    none of the five properties. *)
Record Realm := {
  Object_prototype : Bag.t;
  Object_prototype_methods : gmap string Bag.t;
  inherited_date : Bag.t
}.

(** The realm before any call. *)
Definition pristine : Realm :=
  {| Object_prototype := Bag.empty;
     Object_prototype_methods := ∅;
     inherited_date := Bag.empty |}.

(** The names of the function-valued properties of [Object.prototype]. *)
Definition method_names : list string :=
  [ "constructor"; "__defineGetter__"; "__defineSetter__"; "hasOwnProperty";
    "__lookupGetter__"; "__lookupSetter__"; "isPrototypeOf";
    "propertyIsEnumerable"; "toString"; "valueOf"; "toLocaleString" ].

(** The names of the properties that [recordTokenActivity] writes. *)
Definition written_names : list string :=
  [ "lastActivity"; "accountUpdates"; "transactions";
    "averageTransactionSize"; "largestTransaction" ].

(** The names that a read on an object literal can find in
    [Object.prototype]. *)
Definition inherited_names : list string :=
  "__proto__" :: method_names ++ written_names.

(** What a read [tokenMetrics[name]] evaluates to. *)
Inductive PropertyValue :=
  | Undefined
  | Entry (tokenMetric : TokenMetrics)
  | Builtin (o : BuiltinObject)
  | Number (n : number).

Inductive Exception := TypeError.

#[projections(primitive)]
Record PerformanceMetrics := {
  messagesPerSecond : number;
  totalMessagesProcessed : number;
  averageProcessingTime : number;
  databaseLatency : number;
  databaseOperationsPerSecond : number;
  failedDatabaseOperations : number;
  memoryUsage : MemoryUsage;
  cpuUsage : number;
  connectionUptime : number;
  lastMessageTime : Date;
  streamErrors : number;
  reconnectionCount : number;
  alertsSent : number;
  alertsFailedToSend : number;
  tokenMetrics : loc
}.

Inductive Health := healthy | warning | critical.

#[global] Instance Health_eq_dec : EqDecision Health.
Proof. solve_decision. Defined.

Record Services := {
  database : Health;
  grpcStream : Health;
  alertSystem : Health;
  memory : Health
}.

(** The messages of the [issues] array. *)
Inductive Issue :=
  | HighDatabaseLatency (latency : number)
  | HighDatabaseErrorRate (errorRate : number)
  | StreamSilent (timeSinceLastMessage : number)
  | MultipleStreamErrors (streamErrors : number)
  | HighMemoryUsage (memoryUsed : number)
  | HighAlertFailureRate (failureRate : number)
  | SomeAlertFailures (failureRate : number).

Record HealthStatus := {
  overall : Health;
  services : Services;
  issues : list Issue;
  uptime : number
}.

Record ProcessingTimer := {
  start : number;
  operation : string
}.

Module PERFORMANCE_THRESHOLDS.
Definition MAX_PROCESSING_TIME : number := 1000%float.
Definition MAX_DATABASE_LATENCY : number := 500%float.
Definition MAX_MEMORY_USAGE : number := (512 * 1024 * 1024)%float.
Definition MIN_MESSAGES_PER_MINUTE : number := 60%float.
Definition MAX_STREAM_SILENCE : number := 30000%float.
(** The double nearest to [0.05]. *)
Definition MAX_ERROR_RATE : number := 0x1.999999999999ap-5%float.
End PERFORMANCE_THRESHOLDS.

(** ** The process environment read by a call *)

Record Env := {
  Date_now : number;
  performance_now : number;
  process_memoryUsage : MemoryUsage;
  process_cpuUsage : CpuUsage
}.

(** ** [src/monitoring/monitor.ts]: the state of a [PerformanceMonitor] *)

Record PerformanceMonitor := {
  metrics : PerformanceMetrics;
  startTime : number;
  processingTimers : gmap string ProcessingTimer;
  intervalId : option unit
}.

(** The heap of token tables, the built-in objects, the exceptions that
    calls have thrown to their callers (latest first) and the monitor
    object. *)
Record state := {
  heap : gmap loc TokenTable;
  realm : Realm;
  thrown : list Exception;
  this : PerformanceMonitor
}.

(** Assignments [this.metrics.f = v]. *)

Section setters.
Context (v : number).

Definition set_messagesPerSecond (m : PerformanceMetrics) :=
  let 'Build_PerformanceMetrics _ tmp apt dl dops fdo mu cu up lmt se rc sent fts tm := m in
  Build_PerformanceMetrics v tmp apt dl dops fdo mu cu up lmt se rc sent fts tm.

Definition set_totalMessagesProcessed (m : PerformanceMetrics) :=
  let 'Build_PerformanceMetrics mps _ apt dl dops fdo mu cu up lmt se rc sent fts tm := m in
  Build_PerformanceMetrics mps v apt dl dops fdo mu cu up lmt se rc sent fts tm.

Definition set_averageProcessingTime (m : PerformanceMetrics) :=
  let 'Build_PerformanceMetrics mps tmp _ dl dops fdo mu cu up lmt se rc sent fts tm := m in
  Build_PerformanceMetrics mps tmp v dl dops fdo mu cu up lmt se rc sent fts tm.

Definition set_databaseLatency (m : PerformanceMetrics) :=
  let 'Build_PerformanceMetrics mps tmp apt _ dops fdo mu cu up lmt se rc sent fts tm := m in
  Build_PerformanceMetrics mps tmp apt v dops fdo mu cu up lmt se rc sent fts tm.

Definition set_databaseOperationsPerSecond (m : PerformanceMetrics) :=
  let 'Build_PerformanceMetrics mps tmp apt dl _ fdo mu cu up lmt se rc sent fts tm := m in
  Build_PerformanceMetrics mps tmp apt dl v fdo mu cu up lmt se rc sent fts tm.

Definition set_failedDatabaseOperations (m : PerformanceMetrics) :=
  let 'Build_PerformanceMetrics mps tmp apt dl dops _ mu cu up lmt se rc sent fts tm := m in
  Build_PerformanceMetrics mps tmp apt dl dops v mu cu up lmt se rc sent fts tm.

Definition set_cpuUsage (m : PerformanceMetrics) :=
  let 'Build_PerformanceMetrics mps tmp apt dl dops fdo mu _ up lmt se rc sent fts tm := m in
  Build_PerformanceMetrics mps tmp apt dl dops fdo mu v up lmt se rc sent fts tm.

Definition set_connectionUptime (m : PerformanceMetrics) :=
  let 'Build_PerformanceMetrics mps tmp apt dl dops fdo mu cu _ lmt se rc sent fts tm := m in
  Build_PerformanceMetrics mps tmp apt dl dops fdo mu cu v lmt se rc sent fts tm.

Definition set_lastMessageTime (m : PerformanceMetrics) :=
  let 'Build_PerformanceMetrics mps tmp apt dl dops fdo mu cu up _ se rc sent fts tm := m in
  Build_PerformanceMetrics mps tmp apt dl dops fdo mu cu up v se rc sent fts tm.

Definition set_streamErrors (m : PerformanceMetrics) :=
  let 'Build_PerformanceMetrics mps tmp apt dl dops fdo mu cu up lmt _ rc sent fts tm := m in
  Build_PerformanceMetrics mps tmp apt dl dops fdo mu cu up lmt v rc sent fts tm.

Definition set_reconnectionCount (m : PerformanceMetrics) :=
  let 'Build_PerformanceMetrics mps tmp apt dl dops fdo mu cu up lmt se _ sent fts tm := m in
  Build_PerformanceMetrics mps tmp apt dl dops fdo mu cu up lmt se v sent fts tm.

Definition set_alertsSent (m : PerformanceMetrics) :=
  let 'Build_PerformanceMetrics mps tmp apt dl dops fdo mu cu up lmt se rc _ fts tm := m in
  Build_PerformanceMetrics mps tmp apt dl dops fdo mu cu up lmt se rc v fts tm.

Definition set_alertsFailedToSend (m : PerformanceMetrics) :=
  let 'Build_PerformanceMetrics mps tmp apt dl dops fdo mu cu up lmt se rc sent _ tm := m in
  Build_PerformanceMetrics mps tmp apt dl dops fdo mu cu up lmt se rc sent v tm.

End setters.

Definition set_memoryUsage (v : MemoryUsage) (m : PerformanceMetrics) :=
  let 'Build_PerformanceMetrics mps tmp apt dl dops fdo _ cu up lmt se rc sent fts tm := m in
  Build_PerformanceMetrics mps tmp apt dl dops fdo v cu up lmt se rc sent fts tm.

(** [this.metrics = f(this.metrics)], [this.processingTimers = ...] *)

Definition with_metrics (f : PerformanceMetrics → PerformanceMetrics)
    (σ : state) : state :=
  {| heap := σ.(heap);
     realm := σ.(realm);
     thrown := σ.(thrown);
     this := {| metrics := f σ.(this).(metrics);
                startTime := σ.(this).(startTime);
                processingTimers := σ.(this).(processingTimers);
                intervalId := σ.(this).(intervalId) |} |}.

Definition with_processingTimers
    (f : gmap string ProcessingTimer → gmap string ProcessingTimer)
    (σ : state) : state :=
  {| heap := σ.(heap);
     realm := σ.(realm);
     thrown := σ.(thrown);
     this := {| metrics := σ.(this).(metrics);
                startTime := σ.(this).(startTime);
                processingTimers := f σ.(this).(processingTimers);
                intervalId := σ.(this).(intervalId) |} |}.

Definition with_intervalId (v : option unit) (σ : state) : state :=
  {| heap := σ.(heap);
     realm := σ.(realm);
     thrown := σ.(thrown);
     this := {| metrics := σ.(this).(metrics);
                startTime := σ.(this).(startTime);
                processingTimers := σ.(this).(processingTimers);
                intervalId := v |} |}.

Definition with_heap (f : gmap loc TokenTable → gmap loc TokenTable)
    (σ : state) : state :=
  {| heap := f σ.(heap);
     realm := σ.(realm);
     thrown := σ.(thrown);
     this := σ.(this) |}.

Definition with_realm (f : Realm → Realm) (σ : state) : state :=
  {| heap := σ.(heap);
     realm := f σ.(realm);
     thrown := σ.(thrown);
     this := σ.(this) |}.

(** [throw x] out of a call. *)
Definition throw (x : Exception) (σ : state) : state :=
  {| heap := σ.(heap);
     realm := σ.(realm);
     thrown := x :: σ.(thrown);
     this := σ.(this) |}.

(** ** [src/monitoring/monitor.ts]: the methods of [PerformanceMonitor] *)

Section monitor.
Local Open Scope float_scope.

(** The object literal assigned to [tokenMetrics[token.symbol]]. *)
Definition initialTokenMetrics (now : Date) (token : Tokens.TokenConfig)
    : TokenMetrics :=
  {| symbol := Tokens.symbol token;
     accountUpdates := 0;
     transactions := 0;
     averageTransactionSize := 0;
     largestTransaction := 0;
     lastActivity := now |}.

(** The [forEach] loop of [initializeMetrics]. *)
Definition initialTokenTable (now : Date) : TokenTable :=
  fold_left
    (λ tbl token, <[Tokens.symbol token := initialTokenMetrics now token]> tbl)
    Tokens.values ∅.

(** [initializeMetrics]: the table is allocated at [l]. *)
Definition initializeMetrics (e : Env) (l : loc) : PerformanceMetrics :=
  {| messagesPerSecond := 0;
     totalMessagesProcessed := 0;
     averageProcessingTime := 0;
     databaseLatency := 0;
     databaseOperationsPerSecond := 0;
     failedDatabaseOperations := 0;
     memoryUsage := process_memoryUsage e;
     cpuUsage := 0;
     connectionUptime := 0;
     lastMessageTime := Date_now e;
     streamErrors := 0;
     reconnectionCount := 0;
     alertsSent := 0;
     alertsFailedToSend := 0;
     tokenMetrics := l |}.

(** [constructor], [startPeriodicReporting] included: the interval
    handle is set; the reports it triggers are calls of
    [printPerformanceReport]. *)
Definition new_PerformanceMonitor (e : Env) : state :=
  let l : loc := fresh (dom (∅ : gmap loc TokenTable)) in
  {| heap := {[ l := initialTokenTable (Date_now e) ]};
     realm := pristine;
     thrown := [];
     this := {| metrics := initializeMetrics e l;
                startTime := Date_now e;
                processingTimers := ∅;
                intervalId := Some () |} |}.

(** *** Helper methods *)

Definition updateAverageProcessingTime (duration : number)
    (m : PerformanceMetrics) : PerformanceMetrics :=
  let total :=
    averageProcessingTime m * (totalMessagesProcessed m - 1) + duration in
  set_averageProcessingTime (total / totalMessagesProcessed m) m.

Definition updateMessagesPerSecond (e : Env) (startTime : number)
    (m : PerformanceMetrics) : PerformanceMetrics :=
  let uptimeSeconds := (Date_now e - startTime) / 1000 in
  set_messagesPerSecond (totalMessagesProcessed m / uptimeSeconds) m.

Definition updateAverageDatabaseLatency (latency : number)
    (m : PerformanceMetrics) : PerformanceMetrics :=
  let total :=
    databaseLatency m * (databaseOperationsPerSecond m - 1) + latency in
  set_databaseLatency (total / databaseOperationsPerSecond m) m.

(** *** Timer registry *)

Definition startTimer (e : Env) (operationId operation : string)
    (σ : state) : state :=
  with_processingTimers
    (λ timers, <[operationId :=
                   {| start := performance_now e;
                      operation := operation |}]> timers) σ.

Definition endTimer (e : Env) (operationId : string) (σ : state)
    : number * state :=
  match σ.(this).(processingTimers) !! operationId with
  | None => (0, σ)
  | Some timer =>
      let duration := performance_now e - start timer in
      let σ := with_processingTimers (λ timers, delete operationId timers) σ in
      let σ := with_metrics (updateAverageProcessingTime duration) σ in
      (duration, σ)
  end.

(** *** Recording *)

Definition recordMessageProcessed (e : Env) (σ : state) : state :=
  let σ := with_metrics
             (λ m, set_totalMessagesProcessed
                     (JS.incr (totalMessagesProcessed m)) m) σ in
  let σ := with_metrics (set_lastMessageTime (Date_now e)) σ in
  with_metrics (updateMessagesPerSecond e σ.(this).(startTime)) σ.

Definition recordDatabaseOperation (latency : number) (success : bool)
    (σ : state) : state :=
  if success then
    let σ := with_metrics (updateAverageDatabaseLatency latency) σ in
    with_metrics
      (λ m, set_databaseOperationsPerSecond
              (JS.incr (databaseOperationsPerSecond m)) m) σ
  else
    with_metrics
      (λ m, set_failedDatabaseOperations
              (JS.incr (failedDatabaseOperations m)) m) σ.

Inductive ActivityType := account | transaction.

(** Assignments [tokenMetric.f = v]. *)

Definition set_accountUpdates (v : number) (t : TokenMetrics) :=
  let 'Build_TokenMetrics sym _ txs avg largest last := t in
  Build_TokenMetrics sym v txs avg largest last.

Definition set_transactions (v : number) (t : TokenMetrics) :=
  let 'Build_TokenMetrics sym acc _ avg largest last := t in
  Build_TokenMetrics sym acc v avg largest last.

Definition set_averageTransactionSize (v : number) (t : TokenMetrics) :=
  let 'Build_TokenMetrics sym acc txs _ largest last := t in
  Build_TokenMetrics sym acc txs v largest last.

Definition set_largestTransaction (v : number) (t : TokenMetrics) :=
  let 'Build_TokenMetrics sym acc txs avg _ last := t in
  Build_TokenMetrics sym acc txs avg v last.

Definition set_lastActivity (v : Date) (t : TokenMetrics) :=
  let 'Build_TokenMetrics sym acc txs avg largest _ := t in
  Build_TokenMetrics sym acc txs avg largest v.

(** The statements of [recordTokenActivity] after the early return,
    acting on the object [tokenMetric]. *)
Definition updateTokenMetric (e : Env) (type : ActivityType)
    (amount : option number) (tokenMetric : TokenMetrics) : TokenMetrics :=
  let tokenMetric := set_lastActivity (Date_now e) tokenMetric in
  match type with
  | account =>
      set_accountUpdates (JS.incr (accountUpdates tokenMetric)) tokenMetric
  | transaction =>
      let tokenMetric :=
        set_transactions (JS.incr (transactions tokenMetric)) tokenMetric in
      match amount with
      | Some amount =>
          if JS.truthy amount then
            let totalAmount :=
              averageTransactionSize tokenMetric
                * (transactions tokenMetric - 1) + amount in
            let tokenMetric :=
              set_averageTransactionSize
                (totalAmount / transactions tokenMetric) tokenMetric in
            if JS.gt amount (largestTransaction tokenMetric)
            then set_largestTransaction amount tokenMetric
            else tokenMetric
          else tokenMetric
      | None => tokenMetric
      end
  end.

(** The own property [symbol] of the table that [m.tokenMetrics] refers
    to: the entry of a token, if the table has one under that name. *)
Definition lookupToken (h : gmap loc TokenTable) (m : PerformanceMetrics)
    (symbol : string) : option TokenMetrics :=
  tbl ← h !! tokenMetrics m; tbl !! symbol.

(** A number-valued property of [Object.prototype], read as a value. *)
Definition number_value (x : option number) : PropertyValue :=
  match x with
  | Some n => Number n
  | None => Undefined
  end.

(** [Object.prototype[name]]: the accessor [__proto__] returns
    [Object.prototype], the method names hold functions, and the five
    written names hold what has been assigned to them. *)
Definition inheritedProperty (r : Realm) (name : string) : PropertyValue :=
  if String.eqb name "__proto__" then Builtin ObjectPrototype
  else if bool_decide (name ∈ method_names)
  then Builtin (ObjectPrototypeMethod name)
  else if String.eqb name "lastActivity" then
    match Bag.lastActivity (Object_prototype r) with
    | Some _ => Builtin InheritedDate
    | None => Undefined
    end
  else if String.eqb name "accountUpdates"
  then number_value (Bag.accountUpdates (Object_prototype r))
  else if String.eqb name "transactions"
  then number_value (Bag.transactions (Object_prototype r))
  else if String.eqb name "averageTransactionSize"
  then number_value (Bag.averageTransactionSize (Object_prototype r))
  else if String.eqb name "largestTransaction"
  then number_value (Bag.largestTransaction (Object_prototype r))
  else Undefined.

(** [m.tokenMetrics[symbol]]: the own property of the table if there is
    one, else the property that the table inherits. *)
Definition getProperty (h : gmap loc TokenTable) (r : Realm)
    (m : PerformanceMetrics) (symbol : string) : PropertyValue :=
  match lookupToken h m symbol with
  | Some tokenMetric => Entry tokenMetric
  | None => inheritedProperty r symbol
  end.

(** [ToBoolean] of such a value: objects are truthy. *)
Definition truthy_value (v : PropertyValue) : bool :=
  match v with
  | Undefined => false
  | Entry _ | Builtin _ => true
  | Number n => JS.truthy n
  end.

(** The own properties of a built-in object. *)
Definition own (r : Realm) (o : BuiltinObject) : Bag.t :=
  match o with
  | ObjectPrototype => Object_prototype r
  | ObjectPrototypeMethod name =>
      default Bag.empty (Object_prototype_methods r !! name)
  | InheritedDate => inherited_date r
  end.

(** The read [o.f] of one of the five properties [f]: the own property,
    else the one of [Object.prototype], in which the prototype chain of
    each of these objects ends ([Function.prototype] and [Date.prototype]
    have none of the five). *)
Definition get {A} (f : Bag.t → option A) (r : Realm) (o : BuiltinObject)
    : option A :=
  match f (own r o) with
  | Some v => Some v
  | None => f (Object_prototype r)
  end.

(** The assignment [o.f = v], for [g] the setter of [f]: it writes an own
    property of [o]. *)
Definition assign (g : Bag.t → Bag.t) (o : BuiltinObject) (r : Realm)
    : Realm :=
  match o with
  | ObjectPrototype =>
      {| Object_prototype := g (Object_prototype r);
         Object_prototype_methods := Object_prototype_methods r;
         inherited_date := inherited_date r |}
  | ObjectPrototypeMethod name =>
      {| Object_prototype := Object_prototype r;
         Object_prototype_methods :=
           <[name := g (own r o)]> (Object_prototype_methods r);
         inherited_date := inherited_date r |}
  | InheritedDate =>
      {| Object_prototype := Object_prototype r;
         Object_prototype_methods := Object_prototype_methods r;
         inherited_date := g (inherited_date r) |}
  end.

(** [o.lastActivity = new Date()]: on [Object.prototype] the new [Date],
    an object without own properties, is from then on the one that
    [tokenMetrics["lastActivity"]] evaluates to. *)
Definition assign_lastActivity (now : Date) (o : BuiltinObject) (r : Realm)
    : Realm :=
  match o with
  | ObjectPrototype =>
      {| Object_prototype := Bag.set_lastActivity now (Object_prototype r);
         Object_prototype_methods := Object_prototype_methods r;
         inherited_date := Bag.empty |}
  | _ => assign (Bag.set_lastActivity now) o r
  end.

(** The statements of [recordTokenActivity] after the early return, for
    [tokenMetric] the built-in object [o]; a read of an absent property
    yields [undefined], which the arithmetic converts to NaN. *)
Definition updateBuiltin (e : Env) (type : ActivityType)
    (amount : option number) (o : BuiltinObject) (r : Realm) : Realm :=
  let r := assign_lastActivity (Date_now e) o r in
  match type with
  | account =>
      assign
        (Bag.set_accountUpdates
           (JS.incr (JS.ToNumber (get Bag.accountUpdates r o)))) o r
  | transaction =>
      let r :=
        assign
          (Bag.set_transactions
             (JS.incr (JS.ToNumber (get Bag.transactions r o)))) o r in
      match amount with
      | Some amount =>
          if JS.truthy amount then
            let totalAmount :=
              JS.ToNumber (get Bag.averageTransactionSize r o)
                * (JS.ToNumber (get Bag.transactions r o) - 1) + amount in
            let r :=
              assign
                (Bag.set_averageTransactionSize
                   (totalAmount / JS.ToNumber (get Bag.transactions r o)))
                o r in
            if JS.gt amount (JS.ToNumber (get Bag.largestTransaction r o))
            then assign (Bag.set_largestTransaction amount) o r
            else r
          else r
      | None => r
      end
  end.

(** [recordTokenActivity]: the early return is taken when
    [tokenMetrics[symbol]] is falsy. An entry of the table is updated in
    place; a built-in object found along the prototype chain is written
    the same way; on a number the first assignment throws, the class body
    being strict-mode code. *)
Definition recordTokenActivity (e : Env) (symbol : string)
    (type : ActivityType) (amount : option number) (σ : state) : state :=
  match getProperty σ.(heap) σ.(realm) σ.(this).(metrics) symbol with
  | Undefined => σ
  | Entry tokenMetric =>
      with_heap
        (alter (λ tbl, <[symbol := updateTokenMetric e type amount tokenMetric]> tbl)
               (tokenMetrics σ.(this).(metrics))) σ
  | Builtin o => with_realm (updateBuiltin e type amount o) σ
  | Number n => if JS.truthy n then throw TypeError σ else σ
  end.

Definition recordStreamError (σ : state) : state :=
  with_metrics (λ m, set_streamErrors (JS.incr (streamErrors m)) m) σ.

Definition recordReconnection (σ : state) : state :=
  with_metrics (λ m, set_reconnectionCount (JS.incr (reconnectionCount m)) m) σ.

Definition recordAlertSent (success : bool) (σ : state) : state :=
  if success then
    with_metrics (λ m, set_alertsSent (JS.incr (alertsSent m)) m) σ
  else
    with_metrics
      (λ m, set_alertsFailedToSend (JS.incr (alertsFailedToSend m)) m) σ.

(** *** System metrics and snapshots *)

Definition updateSystemMetrics (e : Env) (σ : state) : state :=
  let σ := with_metrics (set_memoryUsage (process_memoryUsage e)) σ in
  let σ := with_metrics
             (set_connectionUptime (Date_now e - σ.(this).(startTime))) σ in
  let usage := process_cpuUsage e in
  with_metrics (set_cpuUsage ((user usage + system usage) / 1000000)) σ.

(** [{ ...this.metrics }]: a new record with the same fields; the field
    [tokenMetrics] of the copy is the same reference. *)
Definition spread (m : PerformanceMetrics) : PerformanceMetrics :=
  let 'Build_PerformanceMetrics mps tmp apt dl dops fdo mu cu up lmt se rc sent fts tm := m in
  Build_PerformanceMetrics mps tmp apt dl dops fdo mu cu up lmt se rc sent fts tm.

Definition getMetrics (e : Env) (σ : state) : PerformanceMetrics * state :=
  let σ := updateSystemMetrics e σ in
  (spread σ.(this).(metrics), σ).

(** *** Health checks: each returns its verdict and the [issues] array
    after its [push]. *)

Definition checkDatabaseHealth (m : PerformanceMetrics) (issues : list Issue)
    : Health * list Issue :=
  if JS.gt (databaseLatency m) PERFORMANCE_THRESHOLDS.MAX_DATABASE_LATENCY
  then (warning, issues ++ [HighDatabaseLatency (databaseLatency m)])
  else
    let errorRate :=
      failedDatabaseOperations m /
        (databaseOperationsPerSecond m + failedDatabaseOperations m) in
    if JS.gt errorRate PERFORMANCE_THRESHOLDS.MAX_ERROR_RATE
    then (critical, issues ++ [HighDatabaseErrorRate errorRate])
    else (healthy, issues).

Definition checkStreamHealth (e : Env) (m : PerformanceMetrics)
    (issues : list Issue) : Health * list Issue :=
  let timeSinceLastMessage := Date_now e - lastMessageTime m in
  if JS.gt timeSinceLastMessage PERFORMANCE_THRESHOLDS.MAX_STREAM_SILENCE
  then (critical, issues ++ [StreamSilent timeSinceLastMessage])
  else if JS.gt (streamErrors m) 5
  then (warning, issues ++ [MultipleStreamErrors (streamErrors m)])
  else (healthy, issues).

Definition checkMemoryHealth (m : PerformanceMetrics) (issues : list Issue)
    : Health * list Issue :=
  let memoryUsed := heapUsed (memoryUsage m) in
  if JS.gt memoryUsed PERFORMANCE_THRESHOLDS.MAX_MEMORY_USAGE
  then (warning, issues ++ [HighMemoryUsage memoryUsed])
  else (healthy, issues).

Definition checkAlertHealth (m : PerformanceMetrics) (issues : list Issue)
    : Health * list Issue :=
  let totalAlerts := alertsSent m + alertsFailedToSend m in
  if JS.strict_eq totalAlerts 0 then (healthy, issues)
  else
    let failureRate := alertsFailedToSend m / totalAlerts in
    if JS.gt failureRate 0.5
    then (critical, issues ++ [HighAlertFailureRate failureRate])
    else if JS.gt failureRate 0x1.999999999999ap-4 (* the double 0.1 *)
    then (warning, issues ++ [SomeAlertFailures failureRate])
    else (healthy, issues).

(** [healthLevels.includes(level)] *)
Definition includes (healthLevels : list Health) (level : Health) : bool :=
  bool_decide (level ∈ healthLevels).

Definition getHealthStatus (e : Env) (σ : state) : HealthStatus * state :=
  let σ := updateSystemMetrics e σ in
  let m := σ.(this).(metrics) in
  let issues : list Issue := [] in
  let '(dbHealth, issues) := checkDatabaseHealth m issues in
  let '(streamHealth, issues) := checkStreamHealth e m issues in
  let '(memoryHealth, issues) := checkMemoryHealth m issues in
  let '(alertHealth, issues) := checkAlertHealth m issues in
  let healthLevels := [dbHealth; streamHealth; memoryHealth; alertHealth] in
  let overallHealth :=
    if includes healthLevels critical then critical
    else if includes healthLevels warning then warning
    else healthy in
  ({| overall := overallHealth;
      services := {| database := dbHealth;
                     grpcStream := streamHealth;
                     memory := memoryHealth;
                     alertSystem := alertHealth |};
      issues := issues;
      uptime := connectionUptime m |}, σ).

(** *** Reporting and cleanup: the console output is not part of the
    state; the report reads a snapshot and the health status. *)

Definition printPerformanceReport (e : Env) (σ : state) : state :=
  let '(_, σ) := getMetrics e σ in
  let '(_, σ) := getHealthStatus e σ in
  σ.

Definition stop (σ : state) : state :=
  match σ.(this).(intervalId) with
  | Some _ => with_intervalId None σ
  | None => σ
  end.

End monitor.

(** ** Call sequences

    The calls a client makes on the monitor, each with the environment it
    reads, and their effect on the state. *)

Inductive call :=
  | StartTimer (operationId operation : string)
  | EndTimer (operationId : string)
  | RecordMessageProcessed
  | RecordDatabaseOperation (latency : number) (success : bool)
  | RecordTokenActivity (symbol : string) (type : ActivityType)
      (amount : option number)
  | RecordStreamError
  | RecordReconnection
  | RecordAlertSent (success : bool)
  | UpdateSystemMetrics
  | GetMetrics
  | GetHealthStatus
  | PrintPerformanceReport
  | Stop.

Definition step (σ : state) (c : Env * call) : state :=
  let '(e, c) := c in
  match c with
  | StartTimer operationId operation => startTimer e operationId operation σ
  | EndTimer operationId => (endTimer e operationId σ).2
  | RecordMessageProcessed => recordMessageProcessed e σ
  | RecordDatabaseOperation latency success =>
      recordDatabaseOperation latency success σ
  | RecordTokenActivity symbol type amount =>
      recordTokenActivity e symbol type amount σ
  | RecordStreamError => recordStreamError σ
  | RecordReconnection => recordReconnection σ
  | RecordAlertSent success => recordAlertSent success σ
  | UpdateSystemMetrics => updateSystemMetrics e σ
  | GetMetrics => (getMetrics e σ).2
  | GetHealthStatus => (getHealthStatus e σ).2
  | PrintPerformanceReport => printPerformanceReport e σ
  | Stop => stop σ
  end.

Definition run (cs : list (Env * call)) (σ : state) : state :=
  fold_left step cs σ.

(** The states a monitor goes through: the constructor followed by calls. *)
Definition reachable (σ : state) : Prop :=
  ∃ e0 cs, σ = run cs (new_PerformanceMonitor e0).

(** A fixed environment for examples. *)
Definition env0 : Env :=
  {| Date_now := 1000%float;
     performance_now := 50%float;
     process_memoryUsage :=
       {| rss := 0%float; heapTotal := 0%float; heapUsed := 0%float;
          external := 0%float; arrayBuffers := 0%float |};
     process_cpuUsage := {| user := 0%float; system := 0%float |} |}.

(** A later reading of the environment: five milliseconds have passed on
    the performance clock. *)
Definition env1 : Env :=
  {| Date_now := 1000%float;
     performance_now := 55%float;
     process_memoryUsage := process_memoryUsage env0;
     process_cpuUsage := process_cpuUsage env0 |}.

(** ** Vocabulary of the statements *)

(** [m'] is [m] up to the field [averageProcessingTime]. *)
Definition same_but_averageProcessingTime (m m' : PerformanceMetrics) : Prop :=
  messagesPerSecond m' = messagesPerSecond m
  ∧ totalMessagesProcessed m' = totalMessagesProcessed m
  ∧ databaseLatency m' = databaseLatency m
  ∧ databaseOperationsPerSecond m' = databaseOperationsPerSecond m
  ∧ failedDatabaseOperations m' = failedDatabaseOperations m
  ∧ memoryUsage m' = memoryUsage m
  ∧ cpuUsage m' = cpuUsage m
  ∧ connectionUptime m' = connectionUptime m
  ∧ lastMessageTime m' = lastMessageTime m
  ∧ streamErrors m' = streamErrors m
  ∧ reconnectionCount m' = reconnectionCount m
  ∧ alertsSent m' = alertsSent m
  ∧ alertsFailedToSend m' = alertsFailedToSend m
  ∧ tokenMetrics m' = tokenMetrics m.

(** The token table of the monitor exists and has an entry for exactly
    the configured symbols. *)
Definition tokens_configured (σ : state) : Prop :=
  ∃ tbl : TokenTable,
    σ.(heap) !! tokenMetrics σ.(this).(metrics) = Some tbl
    ∧ dom tbl = list_to_set Tokens.symbols.

(** The arithmetic mean of a list of samples, as the specification words
    it: their sum divided by their number. *)
Definition arithmetic_mean (samples : list number) : number :=
  (fold_left PrimFloat.add samples 0 / fold_left (λ n _, n + 1) samples 0)%float.

(** The calls that record a database operation. *)
Definition is_RecordDatabaseOperation (c : call) : bool :=
  match c with
  | RecordDatabaseOperation _ _ => true
  | _ => false
  end.

(** The number that holds a counter of value [n]. *)
Definition number_of_nat (n : nat) : number :=
  PrimFloat.of_uint63 (Uint63.of_Z (Z.of_nat n)).

(** The alert verdict as the specification words it, on exact counters:
    healthy when nothing was attempted, else critical when more than half
    of the attempts failed, warning when more than a tenth did. *)
Definition alert_verdict_of_counts (sent failed : nat) : Health :=
  if (sent + failed =? 0)%nat then healthy
  else if (sent + failed <? 2 * failed)%nat then critical
  else if (sent + failed <? 10 * failed)%nat then warning
  else healthy.

(** Metrics whose alert counters are [sent] and [failed]. *)
Definition metrics_with_alerts (sent failed : nat) : PerformanceMetrics :=
  set_alertsFailedToSend (number_of_nat failed)
    (set_alertsSent (number_of_nat sent) (initializeMetrics env0 1%positive)).

(** The three database fields together. *)
Definition database_fields (m : PerformanceMetrics) : number * number * number :=
  (databaseLatency m, databaseOperationsPerSecond m, failedDatabaseOperations m).

(** The successful database operations of a call sequence, counted. *)
Definition is_success (c : call) : bool :=
  match c with
  | RecordDatabaseOperation _ true => true
  | _ => false
  end.

Definition successes (cs : list (Env * call)) : nat :=
  sum_list (map (λ c : Env * call, if is_success c.2 then 1 else 0) cs).

(** What the database latency and operation counter are after [k]
    successful operations on a fresh monitor. *)
Definition latency_after (k : nat) (m : PerformanceMetrics) : Prop :=
  match k with
  | 0 => databaseLatency m = 0%float ∧ databaseOperationsPerSecond m = 0%float
  | 1 => databaseOperationsPerSecond m = 1%float
         ∧ (databaseLatency m = infinity
            ∨ databaseLatency m = neg_infinity
            ∨ databaseLatency m = nan)
  | _ => databaseLatency m = nan
  end.

(** The code and the exact verdict agree on the counters [sent], [failed]. *)
Definition alert_verdicts_agree (sent failed : nat) : bool :=
  bool_decide ((checkAlertHealth (metrics_with_alerts sent failed) []).1
               = alert_verdict_of_counts sent failed).

(** ** [src/config/tokens.ts]: the helper functions *)

(** [Object.values(SUPPORTED_TOKENS).find(token => token.mintAddress === mintAddress)] *)
Definition getTokenByMint (mintAddress : string) : option Tokens.TokenConfig :=
  List.find (λ token, String.eqb (Tokens.mintAddress token) mintAddress)
    Tokens.values.

Definition getEnabledTokens : list Tokens.TokenConfig :=
  List.filter (λ token, Tokens.enabled token) Tokens.values.

Definition getAllTokenMints : list string :=
  map (λ token, Tokens.mintAddress token) getEnabledTokens.

(** ** [src/monitoring/monitor.ts]: the singleton

    The module variable [performanceMonitor] holds [null] or the monitor;
    both functions return what the variable holds after the call. *)

Definition initializeMonitoring (e : Env) (performanceMonitor : option state)
    : option state :=
  match performanceMonitor with
  | None => Some (new_PerformanceMonitor e)
  | Some σ => Some σ
  end.

Definition getPerformanceMonitor (performanceMonitor : option state)
    : option state :=
  performanceMonitor.

(** ** The performance dashboard (class [PerformanceDashboard])

    Each static method takes the value of the module variable
    [performanceMonitor] and returns its result with the value the
    variable holds afterwards. *)

Module PerformanceDashboard.

Definition getMetricsJSON (e : Env) (performanceMonitor : option state)
    : option PerformanceMetrics * option state :=
  match getPerformanceMonitor performanceMonitor with
  | Some monitor =>
      let '(metrics, monitor) := getMetrics e monitor in
      (Some metrics, Some monitor)
  | None => (None, None)
  end.

Definition getHealthJSON (e : Env) (performanceMonitor : option state)
    : option HealthStatus * option state :=
  match getPerformanceMonitor performanceMonitor with
  | Some monitor =>
      let '(health, monitor) := getHealthStatus e monitor in
      (Some health, Some monitor)
  | None => (None, None)
  end.

(** The object that [getTokenMetrics] returns; a property read off an
    object that does not have it is [undefined] ([None]). *)
Module TokenDetail.
Record t := {
  symbol : option string;
  accountUpdates : option number;
  transactions : option number;
  averageTransactionSize : option number;
  largestTransaction : option number;
  lastActivity : option Date;
  activityRate : number
}.
End TokenDetail.

(** The read [tokenMetric.f] on a truthy value: [own] reads the field of
    a token entry, [inherited] the property of a built-in object; a number
    is read through [Number.prototype], whose chain ends in
    [Object.prototype]. *)
Definition read {A} (own : TokenMetrics → A) (inherited : Bag.t → option A)
    (r : Realm) (tokenMetric : PropertyValue) : option A :=
  match tokenMetric with
  | Entry t => Some (own t)
  | Builtin o => get inherited r o
  | Number _ => inherited (Object_prototype r)
  | Undefined => None
  end.

(** [new Date(x).getTime()] is the time of the date [x] and NaN for
    [undefined]. *)
Definition calculateActivityRate (e : Env) (r : Realm)
    (tokenMetric : PropertyValue) : number :=
  let now := Date_now e in
  let lastActivity :=
    JS.ToNumber (read lastActivity Bag.lastActivity r tokenMetric) in
  let minutesSinceLastActivity := ((now - lastActivity) / (1000 * 15))%float in
  if JS.strict_eq minutesSinceLastActivity 0 then 0%float
  else (JS.ToNumber (read transactions Bag.transactions r tokenMetric)
        / minutesSinceLastActivity)%float.

Definition getTokenMetrics (e : Env) (symbol : string)
    (performanceMonitor : option state)
    : option TokenDetail.t * option state :=
  match getMetricsJSON e performanceMonitor with
  | (Some metrics, Some monitor) =>
      let r := monitor.(realm) in
      let tokenMetric := getProperty monitor.(heap) r metrics symbol in
      if negb (truthy_value tokenMetric) then (None, Some monitor)
      else
        (Some {| TokenDetail.symbol :=
                   read (λ t, let 'Build_TokenMetrics sym _ _ _ _ _ := t in sym)
                     (λ _, None) r tokenMetric;
                 TokenDetail.accountUpdates :=
                   read accountUpdates Bag.accountUpdates r tokenMetric;
                 TokenDetail.transactions :=
                   read transactions Bag.transactions r tokenMetric;
                 TokenDetail.averageTransactionSize :=
                   read averageTransactionSize Bag.averageTransactionSize
                     r tokenMetric;
                 TokenDetail.largestTransaction :=
                   read largestTransaction Bag.largestTransaction
                     r tokenMetric;
                 TokenDetail.lastActivity :=
                   read lastActivity Bag.lastActivity r tokenMetric;
                 TokenDetail.activityRate :=
                   calculateActivityRate e r tokenMetric |},
         Some monitor)
  | (_, performanceMonitor) => (None, performanceMonitor)
  end.

(** The strings of the [issues] array of [checkPerformanceDegradation]:
    those of the health status, and the five of its own. *)
Inductive DegradationIssue :=
  | HealthIssue (issue : Issue)
  | MonitoringUnavailable
  | VeryLowMessageThroughput
  | HighProcessingLatency
  | HighDatabaseLatency
  | HighMemoryUsage.

Module Degradation.
Record t := {
  degraded : bool;
  issues : list DegradationIssue
}.
End Degradation.

(** [cond && issues.push(x)] for the four local tests *)
Definition push_if (cond : bool) (x : DegradationIssue)
    (issues : list DegradationIssue) : list DegradationIssue :=
  if cond then issues ++ [x] else issues.

Definition checkPerformanceDegradation (e : Env)
    (performanceMonitor : option state) : Degradation.t * option state :=
  let '(health, performanceMonitor) := getHealthJSON e performanceMonitor in
  let '(metrics, performanceMonitor) := getMetricsJSON e performanceMonitor in
  match health, metrics with
  | Some health, Some metrics =>
      let health_issues := issues health in
      let issues : list DegradationIssue := [] in
      let issues :=
        push_if (JS.lt (messagesPerSecond metrics) 0.5)
          VeryLowMessageThroughput issues in
      let issues :=
        push_if (JS.gt (averageProcessingTime metrics) 2000)
          HighProcessingLatency issues in
      let issues :=
        push_if (JS.gt (databaseLatency metrics) 1000)
          HighDatabaseLatency issues in
      let memoryMB := (heapUsed (memoryUsage metrics) / 1024 / 1024)%float in
      let issues := push_if (JS.gt memoryMB 1024) HighMemoryUsage issues in
      ({| Degradation.degraded :=
            bool_decide (overall health = critical)
            || negb (Nat.eqb (length issues) 0);
          Degradation.issues :=
            map HealthIssue health_issues ++ issues |},
       performanceMonitor)
  | _, _ =>
      ({| Degradation.degraded := true;
          Degradation.issues := [MonitoringUnavailable] |},
       performanceMonitor)
  end.

End PerformanceDashboard.

(** ** Vocabulary of the further statements *)

(** The calls that start or stop the timer [operationId]. *)
Definition touches_timer (operationId : string) (c : call) : bool :=
  match c with
  | StartTimer id _ | EndTimer id => String.eqb id operationId
  | _ => false
  end.

(** The calls that only read: snapshots, health status, reports. *)
Definition is_read_call (c : call) : bool :=
  match c with
  | UpdateSystemMetrics | GetMetrics | GetHealthStatus
  | PrintPerformanceReport => true
  | _ => false
  end.

(** [m'] is [m] up to the three fields that [updateSystemMetrics] sets. *)
Definition same_but_system_metrics (m m' : PerformanceMetrics) : Prop :=
  messagesPerSecond m' = messagesPerSecond m
  ∧ totalMessagesProcessed m' = totalMessagesProcessed m
  ∧ averageProcessingTime m' = averageProcessingTime m
  ∧ databaseLatency m' = databaseLatency m
  ∧ databaseOperationsPerSecond m' = databaseOperationsPerSecond m
  ∧ failedDatabaseOperations m' = failedDatabaseOperations m
  ∧ lastMessageTime m' = lastMessageTime m
  ∧ streamErrors m' = streamErrors m
  ∧ reconnectionCount m' = reconnectionCount m
  ∧ alertsSent m' = alertsSent m
  ∧ alertsFailedToSend m' = alertsFailedToSend m
  ∧ tokenMetrics m' = tokenMetrics m.

(** [1] for a verdict that is not [healthy]. *)
Definition non_healthy (h : Health) : nat :=
  match h with
  | healthy => 0
  | _ => 1
  end.

Definition is_failed_alert (c : call) : bool :=
  match c with
  | RecordAlertSent false => true
  | _ => false
  end.

Definition is_RecordMessageProcessed (c : call) : bool :=
  match c with
  | RecordMessageProcessed => true
  | _ => false
  end.

(** The recordings of activity of kind [type] for [symbol]. *)
Definition is_activity (symbol : string) (type : ActivityType) (c : call)
    : bool :=
  match c, type with
  | RecordTokenActivity s account _, account
  | RecordTokenActivity s transaction _, transaction => String.eqb s symbol
  | _, _ => false
  end.

Definition count_calls (p : call → bool) (cs : list (Env * call)) : nat :=
  length (List.filter (λ c : Env * call, p c.2) cs).

(** A number that is an infinity or NaN. *)
Definition not_finite (x : number) : Prop :=
  x = infinity ∨ x = neg_infinity ∨ x = nan.

(** What one call [c] does to the largest transaction of [sym], from the
    entry [t] before to the entry [t'] after: it stays a number, does not
    go down, is at least a non-zero amount that the call records for
    [sym], and changes only to such an amount. *)
Definition largest_step (c : call) (sym : string) (t t' : TokenMetrics)
    : Prop :=
  PrimFloat.eqb (largestTransaction t') (largestTransaction t') = true
  ∧ PrimFloat.leb (largestTransaction t) (largestTransaction t') = true
  ∧ (∀ a, c = RecordTokenActivity sym transaction (Some a) →
          JS.truthy a = true →
          PrimFloat.leb a (largestTransaction t') = true)
  ∧ (largestTransaction t' = largestTransaction t
     ∨ ∃ a, c = RecordTokenActivity sym transaction (Some a)
            ∧ JS.truthy a = true ∧ largestTransaction t' = a).

(** The calls counted by the plain counters. *)
Definition is_failed_database_operation (c : call) : bool :=
  match c with
  | RecordDatabaseOperation _ false => true
  | _ => false
  end.

Definition is_RecordStreamError (c : call) : bool :=
  match c with
  | RecordStreamError => true
  | _ => false
  end.

Definition is_RecordReconnection (c : call) : bool :=
  match c with
  | RecordReconnection => true
  | _ => false
  end.

Definition is_sent_alert (c : call) : bool :=
  match c with
  | RecordAlertSent true => true
  | _ => false
  end.

(** A number-valued property of [Object.prototype] is absent or NaN. *)
Definition absent_or_nan (x : option number) : Prop :=
  x = None ∨ x = Some nan.

(** The numbers that [recordTokenActivity] leaves in [Object.prototype]. *)
Definition inherited_numbers_nan (r : Realm) : Prop :=
  absent_or_nan (Bag.accountUpdates (Object_prototype r))
  ∧ absent_or_nan (Bag.transactions (Object_prototype r))
  ∧ absent_or_nan (Bag.averageTransactionSize (Object_prototype r))
  ∧ Bag.largestTransaction (Object_prototype r) = None.

(** * Properties *)

(** ** What [recordTokenActivity] can write *)

Section recordTokenActivity_frame.
Implicit Types (e : Env) (σ : state) (symbol : string).

(** The monitor object itself is never written: the scalar metrics, the
    reference to the table, the timers and the interval handle stay. *)
Lemma recordTokenActivity_this e symbol type amount σ :
  (recordTokenActivity e symbol type amount σ).(this) = σ.(this).
Proof.
  unfold recordTokenActivity.
  destruct (getProperty _ _ _ _) as [ |t|o|n]; try reflexivity.
  by destruct (JS.truthy n).
Qed.

(** With an own entry under [symbol], the entry is the object written. *)
Lemma recordTokenActivity_own e symbol type amount σ tokenMetric :
  lookupToken σ.(heap) σ.(this).(metrics) symbol = Some tokenMetric →
  recordTokenActivity e symbol type amount σ
  = with_heap
      (alter (λ tbl, <[symbol := updateTokenMetric e type amount tokenMetric]> tbl)
             (tokenMetrics σ.(this).(metrics))) σ.
Proof. unfold recordTokenActivity, getProperty. by intros ->. Qed.

(** [Object.prototype] holds no token entry. *)
Lemma inheritedProperty_not_Entry r name tokenMetric :
  inheritedProperty r name ≠ Entry tokenMetric.
Proof.
  unfold inheritedProperty, number_value.
  repeat match goal with
  | |- context [if ?b then _ else _] => destruct b
  | |- context [match ?x with Some _ => _ | None => _ end] => destruct x
  end; discriminate.
Qed.

(** Without one, no table is written. *)
Lemma recordTokenActivity_not_own e symbol type amount σ :
  lookupToken σ.(heap) σ.(this).(metrics) symbol = None →
  (recordTokenActivity e symbol type amount σ).(heap) = σ.(heap).
Proof.
  unfold recordTokenActivity, getProperty. intros ->.
  destruct (inheritedProperty _ _) as [ |t|o|n] eqn:Hv; try reflexivity.
  - by destruct (inheritedProperty_not_Entry _ _ _ Hv).
  - by destruct (JS.truthy n).
Qed.

(** A name outside of [inherited_names] is not found in
    [Object.prototype]. *)
Lemma inheritedProperty_Undefined r name :
  name ∉ inherited_names → inheritedProperty r name = Undefined.
Proof.
  intros Hname. unfold inheritedProperty.
  destruct (String.eqb_spec name "__proto__") as [->|_].
  { destruct Hname. by vm_compute; left. }
  rewrite bool_decide_eq_false_2.
  2: { intros Hin. apply Hname. unfold inherited_names.
       apply elem_of_cons. right. apply elem_of_app. by left. }
  assert (Hw : name ∉ written_names).
  { intros Hin. apply Hname. unfold inherited_names.
    apply elem_of_cons. right. apply elem_of_app. by right. }
  repeat match goal with
  | |- context [String.eqb name ?x] =>
      destruct (String.eqb_spec name x) as [->|_];
        [destruct Hw; by repeat constructor|]
  end.
  reflexivity.
Qed.

End recordTokenActivity_frame.

(** ** Timer registry *)

Section timer_registry.
Local Open Scope float_scope.
Implicit Types (e : Env) (σ : state) (operationId : string).

(** C4: stopping an identifier that has no entry (never started, or
    already stopped) returns exactly [0] and changes nothing: the timer
    registry, and with it every other entry, the metrics and the heap
    are those of the state before the call. *)
Theorem endTimer_unknown e operationId σ :
  σ.(this).(processingTimers) !! operationId = None →
  endTimer e operationId σ = (0, σ).
Proof. unfold endTimer. by intros ->. Qed.

Lemma endTimer_unknown_witness :
  let σ :=
    startTimer env0 "msg-1" "message_processing"
      (new_PerformanceMonitor env0) in
  σ.(this).(processingTimers) !! "db-account-7" = None
  ∧ endTimer env1 "db-account-7" σ = (0, σ).
Proof.
  cbv zeta. split; [reflexivity|].
  apply (endTimer_unknown env1 "db-account-7"
           (startTimer env0 "msg-1" "message_processing"
              (new_PerformanceMonitor env0))).
  reflexivity.
Defined.

(** Stopping removes the entry, so an identifier that was stopped is
    unknown afterwards. *)
Lemma endTimer_removes e operationId σ :
  (endTimer e operationId σ).2.(this).(processingTimers) !! operationId
    = None.
Proof.
  unfold endTimer.
  destruct (σ.(this).(processingTimers) !! operationId) eqn:Hid; simpl.
  - apply lookup_delete_eq.
  - exact Hid.
Qed.

Lemma endTimer_twice e e' operationId σ :
  endTimer e' operationId (endTimer e operationId σ).2
    = (0, (endTimer e operationId σ).2).
Proof. unfold endTimer at 1. by rewrite endTimer_removes. Qed.

(** Stopping leaves the entries of the other identifiers alone. *)
Lemma endTimer_other e operationId other σ :
  other ≠ operationId →
  (endTimer e operationId σ).2.(this).(processingTimers) !! other
    = σ.(this).(processingTimers) !! other.
Proof.
  intros Hne. unfold endTimer.
  destruct (σ.(this).(processingTimers) !! operationId); simpl; [|done].
  by apply lookup_delete_ne.
Qed.

End timer_registry.

(** ** [endTimer] and the aggregator *)

Section endTimer_aggregator.
Local Open Scope float_scope.
Implicit Types (e : Env) (σ : state) (operationId : string).

(** C5 (as amended): for a registered identifier, [endTimer] returns the
    elapsed time, removes the entry, and folds the elapsed time into
    [averageProcessingTime]; the other fields of the metrics, the token
    tables, the start time and the interval handle are unchanged. *)
Theorem endTimer_registered e operationId σ timer :
  σ.(this).(processingTimers) !! operationId = Some timer →
  let duration := performance_now e - start timer in
  let m := σ.(this).(metrics) in
  let σ' := (endTimer e operationId σ).2 in
  (endTimer e operationId σ).1 = duration
  ∧ σ'.(this).(processingTimers)
      = delete operationId σ.(this).(processingTimers)
  ∧ averageProcessingTime σ'.(this).(metrics)
      = (averageProcessingTime m * (totalMessagesProcessed m - 1) + duration)
          / totalMessagesProcessed m
  ∧ same_but_averageProcessingTime m σ'.(this).(metrics)
  ∧ σ'.(heap) = σ.(heap)
  ∧ σ'.(this).(startTime) = σ.(this).(startTime)
  ∧ σ'.(this).(intervalId) = σ.(this).(intervalId).
Proof.
  intros Hid. unfold endTimer. rewrite Hid. simpl.
  unfold same_but_averageProcessingTime. repeat split.
Qed.

(** C5 (as stated) fails: a message timer is started, the message is
    recorded, and stopping the timer moves [averageProcessingTime] from
    [0] to the five elapsed milliseconds. *)
Lemma endTimer_updates_averageProcessingTime :
  let σ :=
    run [(env0, StartTimer "msg-1" "message_processing");
         (env0, RecordMessageProcessed)] (new_PerformanceMonitor env0) in
  let σ' := (endTimer env1 "msg-1" σ).2 in
  is_Some (σ.(this).(processingTimers) !! "msg-1")
  ∧ averageProcessingTime σ.(this).(metrics) = 0
  ∧ averageProcessingTime σ'.(this).(metrics) = 5
  ∧ σ'.(this).(metrics) ≠ σ.(this).(metrics).
Proof.
  cbv zeta. split; [by eexists|]. split; [reflexivity|].
  split; [reflexivity|].
  intros Heq.
  apply (f_equal (λ m, JS.strict_eq (averageProcessingTime m) 0)) in Heq.
  vm_compute in Heq. discriminate.
Qed.

Lemma endTimer_registered_witness :
  let σ :=
    run [(env0, StartTimer "msg-1" "message_processing");
         (env0, RecordMessageProcessed)] (new_PerformanceMonitor env0) in
  σ.(this).(processingTimers) !! "msg-1"
    = Some {| start := 50; operation := "message_processing" |}
  ∧ (endTimer env1 "msg-1" σ).1 = 5
  ∧ averageProcessingTime (endTimer env1 "msg-1" σ).2.(this).(metrics) = 5.
Proof.
  cbv zeta. split; [reflexivity|].
  pose proof (endTimer_registered env1 "msg-1"
    (run [(env0, StartTimer "msg-1" "message_processing");
          (env0, RecordMessageProcessed)] (new_PerformanceMonitor env0))
    {| start := 50; operation := "message_processing" |} eq_refl) as H.
  cbv zeta in H. destruct H as (H1 & _ & H3 & _).
  split; [rewrite H1 | rewrite H3]; reflexivity.
Defined.

End endTimer_aggregator.

(** ** The token tables *)

Section token_tables.
Local Open Scope float_scope.
Implicit Types (e : Env) (σ : state) (symbol : string).

Lemma initialTokenTable_dom now :
  dom (initialTokenTable now) = list_to_set Tokens.symbols.
Proof. by vm_compute. Qed.

Lemma new_tokens_configured e : tokens_configured (new_PerformanceMonitor e).
Proof.
  exists (initialTokenTable (Date_now e)). split.
  - apply lookup_singleton_eq.
  - apply initialTokenTable_dom.
Qed.

(** The health status is computed from the state that
    [updateSystemMetrics] leaves. *)
Lemma getHealthStatus_state e σ :
  (getHealthStatus e σ).2 = updateSystemMetrics e σ.
Proof.
  unfold getHealthStatus.
  destruct (checkDatabaseHealth _ _) as [dbHealth issues1].
  destruct (checkStreamHealth _ _ _) as [streamHealth issues2].
  destruct (checkMemoryHealth _ _) as [memoryHealth issues3].
  destruct (checkAlertHealth _ _) as [alertHealth issues4].
  reflexivity.
Qed.

Lemma printPerformanceReport_state e σ :
  printPerformanceReport e σ = updateSystemMetrics e (updateSystemMetrics e σ).
Proof.
  unfold printPerformanceReport, getMetrics.
  rewrite (surjective_pairing (getHealthStatus _ _)).
  by rewrite getHealthStatus_state.
Qed.

(** No call redirects the [tokenMetrics] field of the live metrics. *)
Lemma step_tokenMetrics σ c :
  tokenMetrics (step σ c).(this).(metrics) = tokenMetrics σ.(this).(metrics).
Proof.
  destruct c as [e [id op|id| |latency success|sym ty amt| | |success| | | | | ]]; simpl;
    rewrite ?getHealthStatus_state, ?printPerformanceReport_state;
    try reflexivity.
  - unfold endTimer. by destruct (_ !! _).
  - by destruct success.
  - by rewrite recordTokenActivity_this.
  - by destruct success.
  - unfold stop. by destruct (intervalId _).
Qed.

(** Only [recordTokenActivity] writes to the heap. *)
Lemma step_heap σ c :
  (∀ symbol type amount, c.2 ≠ RecordTokenActivity symbol type amount) →
  (step σ c).(heap) = σ.(heap).
Proof.
  destruct c as [e [id op|id| |latency success|sym ty amt| | |success| | | | | ]]; simpl; intros Hc;
    rewrite ?getHealthStatus_state, ?printPerformanceReport_state;
    try reflexivity.
  - unfold endTimer. by destruct (_ !! _).
  - by destruct success.
  - by destruct (Hc sym ty amt).
  - by destruct success.
  - unfold stop. by destruct (intervalId _).
Qed.

Lemma recordTokenActivity_tokens_configured e symbol type amount σ :
  tokens_configured σ →
  tokens_configured (recordTokenActivity e symbol type amount σ).
Proof.
  intros (tbl & Htbl & Hdom).
  destruct (lookupToken σ.(heap) σ.(this).(metrics) symbol)
    as [tokenMetric|] eqn:Hsym.
  - rewrite (recordTokenActivity_own _ _ _ _ _ _ Hsym).
    unfold lookupToken in Hsym. rewrite Htbl in Hsym. simpl in Hsym.
    eexists. split.
    + simpl. rewrite lookup_alter_eq, Htbl. reflexivity.
    + rewrite dom_insert_lookup_L; [done|by eexists].
  - exists tbl.
    by rewrite recordTokenActivity_this, recordTokenActivity_not_own.
Qed.

Lemma step_tokens_configured σ c :
  tokens_configured σ → tokens_configured (step σ c).
Proof.
  intros Hσ.
  destruct (c.2) as [id op|id| |latency success|sym ty amt| | |success| | | | | ]
    eqn:Hc.
  5: { destruct c as [e c]. simpl in Hc. subst c.
       by apply recordTokenActivity_tokens_configured. }
  all: destruct Hσ as (tbl & Htbl & Hdom); exists tbl; split; [|done].
  all: rewrite step_tokenMetrics, step_heap; [done|].
  all: intros symbol type amount Heq; rewrite Heq in Hc; discriminate.
Qed.

Lemma run_tokens_configured cs σ :
  tokens_configured σ → tokens_configured (run cs σ).
Proof.
  revert σ. induction cs as [|c cs IH]; intros σ Hσ; [done|].
  apply IH. by apply step_tokens_configured.
Qed.

Lemma reachable_tokens_configured σ : reachable σ → tokens_configured σ.
Proof.
  intros (e0 & cs & ->). apply run_tokens_configured, new_tokens_configured.
Qed.

(** In a reachable state, the symbols with an entry are the configured
    ones. *)
Lemma reachable_lookupToken_is_Some σ symbol :
  reachable σ →
  is_Some (lookupToken σ.(heap) σ.(this).(metrics) symbol)
  ↔ symbol ∈ Tokens.symbols.
Proof.
  intros (tbl & Htbl & Hdom)%reachable_tokens_configured.
  unfold lookupToken. rewrite Htbl. simpl.
  rewrite <- elem_of_dom, Hdom. apply elem_of_list_to_set.
Qed.

End token_tables.

(** ** Token activity *)

Section token_activity.
Local Open Scope float_scope.
Implicit Types (e : Env) (σ : state) (symbol : string).

(** A symbol that is found neither in the table nor in
    [Object.prototype] is dropped at the first statement. *)
Lemma recordTokenActivity_no_entry e symbol type amount σ :
  lookupToken σ.(heap) σ.(this).(metrics) symbol = None →
  inheritedProperty σ.(realm) symbol = Undefined →
  recordTokenActivity e symbol type amount σ = σ.
Proof. unfold recordTokenActivity, getProperty. by intros -> ->. Qed.

(** C6, evaluated: on a new monitor, recording an account update for the
    symbol [constructor], which is not a configured token, is not a no-op.
    The table has no entry of its own under that name, but the read
    [tokenMetrics["constructor"]] finds the function that
    [Object.prototype] holds there; a function is truthy, so the early
    return is not taken, and the call stores the date in [lastActivity]
    and, incrementing [undefined], NaN in [accountUpdates] on that
    function. Under the symbol [__proto__] the object written is
    [Object.prototype] itself; from then on [tokenMetrics["lastActivity"]]
    is found as well. The entries of the table and the fields of the
    monitor are as before in both cases. *)
Theorem recordTokenActivity_constructor e0 e :
  let σ := new_PerformanceMonitor e0 in
  let σ1 := recordTokenActivity e "constructor" account None σ in
  let σ2 := recordTokenActivity e "__proto__" account None σ in
  (("constructor" ∉ Tokens.symbols) ∧ ("__proto__" ∉ Tokens.symbols))
  ∧ lookupToken σ.(heap) σ.(this).(metrics) "constructor" = None
  ∧ getProperty σ.(heap) σ.(realm) σ.(this).(metrics) "constructor"
    = Builtin (ObjectPrototypeMethod "constructor")
  ∧ own σ.(realm) (ObjectPrototypeMethod "constructor") = Bag.empty
  ∧ own σ1.(realm) (ObjectPrototypeMethod "constructor")
    = {| Bag.lastActivity := Some (Date_now e);
         Bag.accountUpdates := Some nan;
         Bag.transactions := None;
         Bag.averageTransactionSize := None;
         Bag.largestTransaction := None |}
  ∧ ¬ (σ1 = σ)
  ∧ (σ1.(heap) = σ.(heap) ∧ σ1.(this) = σ.(this))
  ∧ getProperty σ.(heap) σ.(realm) σ.(this).(metrics) "__proto__"
    = Builtin ObjectPrototype
  ∧ own σ2.(realm) ObjectPrototype
    = {| Bag.lastActivity := Some (Date_now e);
         Bag.accountUpdates := Some nan;
         Bag.transactions := None;
         Bag.averageTransactionSize := None;
         Bag.largestTransaction := None |}
  ∧ ¬ (σ2 = σ)
  ∧ (σ2.(heap) = σ.(heap) ∧ σ2.(this) = σ.(this))
  ∧ getProperty σ2.(heap) σ2.(realm) σ2.(this).(metrics) "lastActivity"
    = Builtin InheritedDate.
Proof.
  cbv zeta.
  assert (Hnot : ∀ name, bool_decide (name ∈ Tokens.symbols) = false →
                         name ∉ Tokens.symbols).
  { intros name Hname Hin. by rewrite bool_decide_eq_true_2 in Hname. }
  split; [split; by apply Hnot|].
  repeat split; try reflexivity.
  - intros Heq.
    apply (f_equal (λ σ, Bag.lastActivity
                           (own σ.(realm) (ObjectPrototypeMethod "constructor"))))
      in Heq.
    discriminate.
  - intros Heq.
    apply (f_equal (λ σ, Bag.lastActivity (own σ.(realm) ObjectPrototype)))
      in Heq.
    discriminate.
Qed.

(** In every state of a monitor, recording activity for a symbol that is
    not configured writes neither the token table nor the monitor: every
    entry is as before, none is created, and the metrics, the timers and
    the interval handle are as they were. When the symbol is, moreover,
    not a name that the table inherits from [Object.prototype], the early
    return is taken and the call changes nothing at all. *)
Theorem recordTokenActivity_unknown_symbol e symbol type amount σ :
  reachable σ →
  symbol ∉ Tokens.symbols →
  let σ' := recordTokenActivity e symbol type amount σ in
  σ'.(heap) = σ.(heap)
  ∧ σ'.(this) = σ.(this)
  ∧ (symbol ∉ inherited_names → σ' = σ).
Proof.
  intros Hσ Hsym. cbv zeta.
  assert (lookupToken σ.(heap) σ.(this).(metrics) symbol = None) as Hown.
  { apply eq_None_not_Some. by rewrite reachable_lookupToken_is_Some. }
  split; [by apply recordTokenActivity_not_own|].
  split; [apply recordTokenActivity_this|].
  intros Hname. apply recordTokenActivity_no_entry; [done|].
  by apply inheritedProperty_Undefined.
Qed.

Lemma recordTokenActivity_unknown_symbol_witness :
  let σ :=
    run [(env0, RecordTokenActivity "SOL" account None)]
        (new_PerformanceMonitor env0) in
  reachable σ
  ∧ ("WIF" ∉ Tokens.symbols)
  ∧ ("WIF" ∉ inherited_names)
  ∧ recordTokenActivity env1 "WIF" transaction (Some 25) σ = σ.
Proof.
  cbv zeta.
  assert (reachable
            (run [(env0, RecordTokenActivity "SOL" account None)]
                 (new_PerformanceMonitor env0))) as Hσ.
  { by exists env0, [(env0, RecordTokenActivity "SOL" account None)]. }
  assert (Hnot : ∀ l : list string, bool_decide ("WIF" ∈ l) = false →
                                    "WIF" ∉ l).
  { intros l Hl Hin. by rewrite bool_decide_eq_true_2 in Hl. }
  assert ("WIF" ∉ Tokens.symbols) as Hsym by (by apply Hnot).
  assert ("WIF" ∉ inherited_names) as Hname by (by apply Hnot).
  split; [exact Hσ|]. split; [exact Hsym|]. split; [exact Hname|].
  exact (proj2 (proj2 (recordTokenActivity_unknown_symbol env1 "WIF"
                         transaction (Some 25) _ Hσ Hsym)) Hname).
Defined.

(** What a call does to the entry of a symbol that has one. *)
Lemma recordTokenActivity_entry e symbol type amount σ tokenMetric :
  lookupToken σ.(heap) σ.(this).(metrics) symbol = Some tokenMetric →
  let σ' := recordTokenActivity e symbol type amount σ in
  lookupToken σ'.(heap) σ'.(this).(metrics) symbol
    = Some (updateTokenMetric e type amount tokenMetric)
  ∧ σ'.(this) = σ.(this).
Proof.
  intros Hsym. cbv zeta. rewrite (recordTokenActivity_own _ _ _ _ _ _ Hsym).
  split; [|done]. unfold lookupToken in *. simpl.
  rewrite lookup_alter_eq.
  destruct (σ.(heap) !! tokenMetrics σ.(this).(metrics)) as [tbl|];
    [|done].
  simpl. apply lookup_insert_eq.
Qed.

(** The entries of the other symbols are not touched. *)
Lemma recordTokenActivity_other e symbol other type amount σ :
  other ≠ symbol →
  let σ' := recordTokenActivity e symbol type amount σ in
  lookupToken σ'.(heap) σ'.(this).(metrics) other
    = lookupToken σ.(heap) σ.(this).(metrics) other.
Proof.
  intros Hne. cbv zeta.
  destruct (lookupToken σ.(heap) σ.(this).(metrics) symbol)
    as [tokenMetric|] eqn:Hsym.
  2: { unfold lookupToken.
       by rewrite recordTokenActivity_this, recordTokenActivity_not_own. }
  rewrite (recordTokenActivity_own _ _ _ _ _ _ Hsym).
  unfold lookupToken in *. simpl. rewrite lookup_alter_eq.
  destruct (σ.(heap) !! tokenMetrics σ.(this).(metrics)) as [tbl|];
    [|done].
  simpl. by apply lookup_insert_ne.
Qed.

(** C10: for a configured symbol, a transaction with the amount [0] is
    handled as a transaction without amount: the transaction count of
    the token is incremented, and its average transaction size and
    largest transaction (and its account updates) are unchanged. *)
Theorem recordTokenActivity_zero_amount e symbol σ :
  reachable σ →
  symbol ∈ Tokens.symbols →
  let σ' := recordTokenActivity e symbol transaction (Some 0) σ in
  σ' = recordTokenActivity e symbol transaction None σ
  ∧ ∃ t t',
      lookupToken σ.(heap) σ.(this).(metrics) symbol = Some t
      ∧ lookupToken σ'.(heap) σ'.(this).(metrics) symbol = Some t'
      ∧ transactions t' = JS.incr (transactions t)
      ∧ averageTransactionSize t' = averageTransactionSize t
      ∧ largestTransaction t' = largestTransaction t
      ∧ accountUpdates t' = accountUpdates t.
Proof.
  intros Hσ Hsym. cbv zeta. split; [reflexivity|].
  apply (reachable_lookupToken_is_Some σ symbol Hσ) in Hsym as [t Ht].
  exists t, (updateTokenMetric e transaction (Some 0) t).
  split; [done|]. split; [|by repeat split].
  by apply (recordTokenActivity_entry e symbol transaction (Some 0) σ t).
Qed.

Lemma recordTokenActivity_zero_amount_witness :
  let σ :=
    run [(env0, RecordTokenActivity "USDC" transaction (Some 40))]
        (new_PerformanceMonitor env0) in
  let σ' := recordTokenActivity env1 "USDC" transaction (Some 0) σ in
  reachable σ
  ∧ "USDC" ∈ Tokens.symbols
  ∧ σ' = recordTokenActivity env1 "USDC" transaction None σ
  ∧ ∃ t t',
      lookupToken σ.(heap) σ.(this).(metrics) "USDC" = Some t
      ∧ lookupToken σ'.(heap) σ'.(this).(metrics) "USDC" = Some t'
      ∧ transactions t' = JS.incr (transactions t)
      ∧ averageTransactionSize t' = averageTransactionSize t
      ∧ largestTransaction t' = largestTransaction t
      ∧ accountUpdates t' = accountUpdates t.
Proof.
  cbv zeta.
  assert (reachable
            (run [(env0, RecordTokenActivity "USDC" transaction (Some 40))]
                 (new_PerformanceMonitor env0))) as Hσ.
  { by exists env0, [(env0, RecordTokenActivity "USDC" transaction (Some 40))]. }
  assert ("USDC" ∈ Tokens.symbols) as Hsym by apply list_elem_of_here.
  split; [exact Hσ|]. split; [exact Hsym|].
  exact (recordTokenActivity_zero_amount env1 "USDC" _ Hσ Hsym).
Defined.

(** The entry of the witness after the call, computed. *)
Example recordTokenActivity_zero_amount_USDC :
  let σ :=
    run [(env0, RecordTokenActivity "USDC" transaction (Some 40));
         (env1, RecordTokenActivity "USDC" transaction (Some 0))]
        (new_PerformanceMonitor env0) in
  lookupToken σ.(heap) σ.(this).(metrics) "USDC"
  = Some {| symbol := "USDC"; accountUpdates := 0; transactions := 2;
            averageTransactionSize := 40; largestTransaction := 40;
            lastActivity := 1000 |}.
Proof. reflexivity. Qed.

End token_activity.

(** ** The running averages on concrete call sequences *)

Section running_averages.
Local Open Scope float_scope.

(** C1, evaluated: three successful database operations with latencies
    100, 200 and 300 on a fresh monitor. The average is updated before
    the operation counter is incremented, so the first update divides by
    the counter [0] and stores [Infinity]; the second multiplies it by
    [1 - 1] and stores [NaN], which stays. The arithmetic mean of the
    three latencies is 200. *)
Theorem databaseLatency_of_three_successes :
  let σ1 := recordDatabaseOperation 100 true (new_PerformanceMonitor env0) in
  let σ2 := recordDatabaseOperation 200 true σ1 in
  let σ3 := recordDatabaseOperation 300 true σ2 in
  databaseLatency σ1.(this).(metrics) = infinity
  ∧ databaseLatency σ2.(this).(metrics) = nan
  ∧ databaseLatency σ3.(this).(metrics) = nan
  ∧ databaseOperationsPerSecond σ3.(this).(metrics) = 3
  ∧ arithmetic_mean [100; 200; 300] = 200.
Proof. cbv zeta. repeat split; reflexivity. Qed.

(** C7, evaluated: a transaction of SOL without amount followed by one
    of amount 10. The divisor of the average is the transaction counter,
    which also counts the transaction without amount: the stored average
    is 5, and the mean of the amounts supplied is 10. *)
Theorem averageTransactionSize_after_omitted_amount :
  let σ :=
    run [(env0, RecordTokenActivity "SOL" transaction None);
         (env0, RecordTokenActivity "SOL" transaction (Some 10))]
        (new_PerformanceMonitor env0) in
  lookupToken σ.(heap) σ.(this).(metrics) "SOL"
  = Some {| symbol := "SOL"; accountUpdates := 0; transactions := 2;
            averageTransactionSize := 5; largestTransaction := 10;
            lastActivity := 1000 |}
  ∧ arithmetic_mean [10] = 10.
Proof. cbv zeta. split; reflexivity. Qed.

(** The stored average depends on where the transaction without amount
    falls: the same two transactions in the other order store 10. *)
Example averageTransactionSize_before_omitted_amount :
  let σ :=
    run [(env0, RecordTokenActivity "SOL" transaction (Some 10));
         (env0, RecordTokenActivity "SOL" transaction None)]
        (new_PerformanceMonitor env0) in
  averageTransactionSize <$> lookupToken σ.(heap) σ.(this).(metrics) "SOL"
  = Some 10.
Proof. reflexivity. Qed.

(** When every transaction carries a non-zero amount the stored average
    is their mean, here of 10, 60 and 20. *)
Example averageTransactionSize_all_amounts :
  let σ :=
    run [(env0, RecordTokenActivity "SOL" transaction (Some 10));
         (env0, RecordTokenActivity "SOL" transaction (Some 60));
         (env0, RecordTokenActivity "SOL" account None);
         (env0, RecordTokenActivity "SOL" transaction (Some 20))]
        (new_PerformanceMonitor env0) in
  lookupToken σ.(heap) σ.(this).(metrics) "SOL"
  = Some {| symbol := "SOL"; accountUpdates := 1; transactions := 3;
            averageTransactionSize := 30; largestTransaction := 60;
            lastActivity := 1000 |}
  ∧ arithmetic_mean [10; 60; 20] = 30.
Proof. cbv zeta. split; reflexivity. Qed.

End running_averages.

(** ** Snapshots *)

Section snapshots.
Local Open Scope float_scope.
Implicit Types (e : Env) (σ : state) (symbol : string).

(** C2, evaluated: a snapshot is taken from a fresh monitor and one
    account update of SOL is recorded afterwards. Read through the
    snapshot, the entry of SOL had 0 account updates when the snapshot
    was returned and has 1 after the call: the spread copied the
    reference to the token table, not the table. *)
Theorem snapshot_tokenMetrics_after_recordTokenActivity :
  let s := (getMetrics env0 (new_PerformanceMonitor env0)).1 in
  let σ := (getMetrics env0 (new_PerformanceMonitor env0)).2 in
  let σ' := recordTokenActivity env1 "SOL" account None σ in
  accountUpdates <$> lookupToken σ.(heap) s "SOL" = Some 0
  ∧ accountUpdates <$> lookupToken σ'.(heap) s "SOL" = Some 1.
Proof. cbv zeta. split; reflexivity. Qed.

(** The snapshot and the live metrics hold the same reference, and no
    later call changes that: whatever is read through the snapshot is
    the live table. *)
Lemma snapshot_reads_live_table e σ cs symbol :
  let s := (getMetrics e σ).1 in
  let σ' := run cs (getMetrics e σ).2 in
  lookupToken σ'.(heap) s symbol
  = lookupToken σ'.(heap) σ'.(this).(metrics) symbol.
Proof.
  cbv zeta. unfold lookupToken. f_equal.
  assert (∀ cs σ0, tokenMetrics (run cs σ0).(this).(metrics)
                   = tokenMetrics σ0.(this).(metrics)) as Hrun.
  { clear. induction cs as [|c cs IH]; intros σ0; [done|].
    simpl. by rewrite IH, step_tokenMetrics. }
  by rewrite Hrun.
Qed.

End snapshots.

(** ** Health classification *)

Section health.
Local Open Scope float_scope.
Implicit Types (e : Env) (σ : state) (m : PerformanceMetrics).
Implicit Types (issues : list Issue).

(** The verdict of a check does not depend on the issues found so far. *)

Lemma checkDatabaseHealth_verdict m issues :
  (checkDatabaseHealth m issues).1
  = if JS.gt (databaseLatency m) PERFORMANCE_THRESHOLDS.MAX_DATABASE_LATENCY
    then warning
    else if JS.gt (failedDatabaseOperations m
                     / (databaseOperationsPerSecond m
                          + failedDatabaseOperations m))
                  PERFORMANCE_THRESHOLDS.MAX_ERROR_RATE
    then critical else healthy.
Proof. unfold checkDatabaseHealth. by repeat case_match. Qed.

Lemma checkAlertHealth_verdict m issues :
  (checkAlertHealth m issues).1
  = if JS.strict_eq (alertsSent m + alertsFailedToSend m) 0 then healthy
    else if JS.gt (alertsFailedToSend m
                     / (alertsSent m + alertsFailedToSend m)) 0.5
    then critical
    else if JS.gt (alertsFailedToSend m
                     / (alertsSent m + alertsFailedToSend m))
                  0x1.999999999999ap-4
    then warning else healthy.
Proof. unfold checkAlertHealth. by repeat case_match. Qed.

(** The verdicts reported by [getHealthStatus] are those of the four
    checks on the metrics that [updateSystemMetrics] leaves. *)
Lemma getHealthStatus_services e σ :
  let m := (updateSystemMetrics e σ).(this).(metrics) in
  services (getHealthStatus e σ).1
  = {| database := (checkDatabaseHealth m []).1;
       grpcStream :=
         (checkStreamHealth e m (checkDatabaseHealth m []).2).1;
       memory :=
         (checkMemoryHealth m
            (checkStreamHealth e m (checkDatabaseHealth m []).2).2).1;
       alertSystem :=
         (checkAlertHealth m
            (checkMemoryHealth m
               (checkStreamHealth e m (checkDatabaseHealth m []).2).2).2).1 |}.
Proof.
  cbv zeta. unfold getHealthStatus.
  destruct (checkDatabaseHealth _ _) as [dbHealth issues1]. simpl.
  destruct (checkStreamHealth _ _ _) as [streamHealth issues2]. simpl.
  destruct (checkMemoryHealth _ _) as [memoryHealth issues3]. simpl.
  destruct (checkAlertHealth _ _) as [alertHealth issues4]. reflexivity.
Qed.

(** C3, evaluated: one successful and one failed database operation.
    The failure rate is 0.5, above the threshold 0.05, and the verdict is
    [warning]: the latency test comes first and returns before the
    failure rate is looked at. The same holds on metrics that carry the
    average latency 600 with the two counters at 1. *)
Theorem checkDatabaseHealth_latency_first :
  let σ :=
    run [(env0, RecordDatabaseOperation 600 true);
         (env0, RecordDatabaseOperation 600 false)]
        (new_PerformanceMonitor env0) in
  let m :=
    set_failedDatabaseOperations 1
      (set_databaseOperationsPerSecond 1
         (set_databaseLatency 600 (initializeMetrics env0 1%positive))) in
  failedDatabaseOperations m
    / (databaseOperationsPerSecond m + failedDatabaseOperations m) = 0.5
  ∧ JS.gt 0.5 PERFORMANCE_THRESHOLDS.MAX_ERROR_RATE = true
  ∧ checkDatabaseHealth m [] = (warning, [HighDatabaseLatency 600])
  ∧ databaseOperationsPerSecond σ.(this).(metrics) = 1
  ∧ failedDatabaseOperations σ.(this).(metrics) = 1
  ∧ database (services (getHealthStatus env0 σ).1) = warning.
Proof. cbv zeta. repeat split; reflexivity. Qed.

(** With the latency within its threshold the failure rate decides, and
    a latency above its threshold gives [warning] whatever the rate. *)
Lemma checkDatabaseHealth_latency_within m issues :
  JS.gt (databaseLatency m) PERFORMANCE_THRESHOLDS.MAX_DATABASE_LATENCY
    = false →
  (checkDatabaseHealth m issues).1
  = if JS.gt (failedDatabaseOperations m
                / (databaseOperationsPerSecond m
                     + failedDatabaseOperations m))
             PERFORMANCE_THRESHOLDS.MAX_ERROR_RATE
    then critical else healthy.
Proof. intros H. by rewrite checkDatabaseHealth_verdict, H. Qed.

Lemma checkDatabaseHealth_latency_above m issues :
  JS.gt (databaseLatency m) PERFORMANCE_THRESHOLDS.MAX_DATABASE_LATENCY
    = true →
  (checkDatabaseHealth m issues).1 = warning.
Proof. intros H. by rewrite checkDatabaseHealth_verdict, H. Qed.

(** C8: the alert verdict of [getHealthStatus] is a function of the two
    alert counters alone. It is [healthy] when their sum is [0]; when it
    is not, with [failureRate] the failed count divided by the sum, it is
    [critical] exactly when the rate exceeds 0.5, [warning] exactly when
    it exceeds 0.1 but not 0.5, and [healthy] exactly when it exceeds
    neither. The constant 0.1 is the double the literal denotes. *)
Theorem alertSystem_verdict e σ :
  let m := σ.(this).(metrics) in
  let totalAlerts := alertsSent m + alertsFailedToSend m in
  let failureRate := alertsFailedToSend m / totalAlerts in
  let verdict := alertSystem (services (getHealthStatus e σ).1) in
  ((totalAlerts =? 0) = true → verdict = healthy)
  ∧ ((totalAlerts =? 0) = false →
     (verdict = critical ↔ (0.5 <? failureRate) = true)
     ∧ (verdict = warning
        ↔ (0.5 <? failureRate) = false
          ∧ (0x1.999999999999ap-4 <? failureRate) = true)
     ∧ (verdict = healthy
        ↔ (0.5 <? failureRate) = false
          ∧ (0x1.999999999999ap-4 <? failureRate) = false)).
Proof.
  cbv zeta. rewrite getHealthStatus_services. cbn [alertSystem].
  rewrite checkAlertHealth_verdict. unfold JS.strict_eq, JS.gt.
  change (alertsSent (updateSystemMetrics e σ).(this).(metrics))
    with (alertsSent σ.(this).(metrics)).
  change (alertsFailedToSend (updateSystemMetrics e σ).(this).(metrics))
    with (alertsFailedToSend σ.(this).(metrics)).
  split; [by intros ->|]. intros ->.
  destruct (0.5 <? _); [by repeat split; intros; destruct_and?|].
  destruct (_ <? _); by repeat split; intros; destruct_and?.
Qed.

(** On exact counters the comparisons of the failure rate in doubles
    decide what the fractions decide: for all counters up to 100 the
    verdict is [critical] when more than half of the attempts failed,
    [warning] when more than a tenth did, and [healthy] otherwise (a rate
    of exactly one half is a [warning], of exactly one tenth [healthy]). *)
Lemma checkAlertHealth_exact_counts sent failed :
  (sent ≤ 100)%nat → (failed ≤ 100)%nat →
  (checkAlertHealth (metrics_with_alerts sent failed) []).1
  = alert_verdict_of_counts sent failed.
Proof.
  intros Hsent Hfailed.
  assert (forallb (λ s, forallb (alert_verdicts_agree s) (seq 0 101))
            (seq 0 101) = true) as Hall by (vm_compute; reflexivity).
  rewrite forallb_forall in Hall.
  specialize (Hall sent). rewrite forallb_forall in Hall.
  apply (bool_decide_eq_true_1 _), Hall; apply in_seq; lia.
Qed.

Lemma checkAlertHealth_exact_counts_witness :
  (1 ≤ 100)%nat ∧ (1 ≤ 100)%nat
  ∧ (checkAlertHealth (metrics_with_alerts 1 1) []).1 = warning
  ∧ (checkAlertHealth (metrics_with_alerts 9 1) []).1 = healthy.
Proof.
  assert ((1 ≤ 100)%nat) as H1 by lia.
  assert ((9 ≤ 100)%nat) as H9 by lia.
  split; [exact H1|]. split; [exact H1|]. split.
  - exact (checkAlertHealth_exact_counts 1 1 H1 H1).
  - exact (checkAlertHealth_exact_counts 9 1 H9 H1).
Defined.

(** The counters that [recordAlertSent] builds are these numbers. *)
Example recordAlertSent_counts :
  let σ :=
    run [(env0, RecordAlertSent true); (env0, RecordAlertSent false);
         (env0, RecordAlertSent true); (env0, RecordAlertSent true)]
        (new_PerformanceMonitor env0) in
  alertsSent σ.(this).(metrics) = number_of_nat 3
  ∧ alertsFailedToSend σ.(this).(metrics) = number_of_nat 1
  ∧ alertSystem (services (getHealthStatus env0 σ).1) = warning.
Proof. cbv zeta. repeat split; reflexivity. Qed.

End health.

(** ** The database verdict before any database operation *)

Section no_database_operation.
Local Open Scope float_scope.
Implicit Types (e : Env) (σ : state) (m : PerformanceMetrics).

(** Only [recordDatabaseOperation] writes to the database fields. *)
Lemma step_database_fields σ c :
  is_RecordDatabaseOperation c.2 = false →
  database_fields (step σ c).(this).(metrics)
  = database_fields σ.(this).(metrics).
Proof.
  destruct c as [e [id op|id| |latency success|sym ty amt| | |success| | | | | ]];
    simpl; intros Hc;
    rewrite ?getHealthStatus_state, ?printPerformanceReport_state;
    try reflexivity.
  - unfold endTimer. by destruct (_ !! _).
  - discriminate.
  - by rewrite recordTokenActivity_this.
  - by destruct success.
  - unfold stop. by destruct (intervalId _).
Qed.

Lemma run_database_fields cs σ :
  Forall (λ c, is_RecordDatabaseOperation c.2 = false) cs →
  database_fields (run cs σ).(this).(metrics)
  = database_fields σ.(this).(metrics).
Proof.
  intros Hcs. revert σ.
  induction Hcs as [|c cs Hc _ IH]; intros σ; [done|].
  simpl. by rewrite IH, step_database_fields.
Qed.

(** With both counters at [0] the failure rate is [0 / 0], which is NaN
    and exceeds no threshold: the verdict is decided by the latency
    alone, and nothing is pushed when the latency is within its
    threshold. *)
Lemma checkDatabaseHealth_no_operation m issues :
  databaseOperationsPerSecond m = 0 →
  failedDatabaseOperations m = 0 →
  JS.gt (databaseLatency m) PERFORMANCE_THRESHOLDS.MAX_DATABASE_LATENCY
    = false →
  failedDatabaseOperations m
    / (databaseOperationsPerSecond m + failedDatabaseOperations m) = nan
  ∧ checkDatabaseHealth m issues = (healthy, issues).
Proof.
  intros Hops Hfailed Hlatency. unfold checkDatabaseHealth.
  rewrite Hlatency, Hops, Hfailed. by split.
Qed.

(** C9: as long as no database operation has been recorded, whatever
    else was called, both database counters are [0], the database check
    returns [healthy] and pushes no issue, and [getHealthStatus] returns
    a status whose database verdict is [healthy]. The failure rate is
    then [0 / 0 = NaN]; the comparison with the threshold is false and
    no error arises. *)
Theorem database_healthy_without_operation e0 cs e :
  Forall (λ c, is_RecordDatabaseOperation c.2 = false) cs →
  let σ := run cs (new_PerformanceMonitor e0) in
  databaseOperationsPerSecond σ.(this).(metrics) = 0
  ∧ failedDatabaseOperations σ.(this).(metrics) = 0
  ∧ checkDatabaseHealth σ.(this).(metrics) [] = (healthy, [])
  ∧ database (services (getHealthStatus e σ).1) = healthy.
Proof.
  intros Hcs. cbv zeta.
  pose proof (run_database_fields cs (new_PerformanceMonitor e0) Hcs) as Hf.
  change (database_fields (new_PerformanceMonitor e0).(this).(metrics))
    with (0, 0, 0) in Hf.
  set (σ := run cs (new_PerformanceMonitor e0)) in *.
  assert (∀ m, database_fields m = (0, 0, 0) →
               checkDatabaseHealth m [] = (healthy, [])) as Hcheck.
  { intros m [= Hl Ho Hx].
    apply checkDatabaseHealth_no_operation; [done..|by rewrite Hl]. }
  split; [exact (f_equal (λ f, f.1.2) Hf)|].
  split; [exact (f_equal (λ f, f.2) Hf)|].
  split; [by apply Hcheck|].
  rewrite getHealthStatus_services. cbn [database].
  by rewrite Hcheck.
Qed.

Lemma database_healthy_without_operation_witness :
  let cs :=
    [(env0, StartTimer "msg-1" "message_processing");
     (env0, RecordTokenActivity "SOL" account None);
     (env0, RecordMessageProcessed);
     (env1, EndTimer "msg-1");
     (env1, RecordAlertSent false);
     (env1, RecordStreamError)] in
  let σ := run cs (new_PerformanceMonitor env0) in
  Forall (λ c, is_RecordDatabaseOperation c.2 = false) cs
  ∧ databaseOperationsPerSecond σ.(this).(metrics) = 0
  ∧ failedDatabaseOperations σ.(this).(metrics) = 0
  ∧ checkDatabaseHealth σ.(this).(metrics) [] = (healthy, [])
  ∧ database (services (getHealthStatus env1 σ).1) = healthy.
Proof.
  cbv zeta.
  assert (Forall (λ c : Env * call, is_RecordDatabaseOperation c.2 = false)
            [(env0, StartTimer "msg-1" "message_processing");
             (env0, RecordTokenActivity "SOL" account None);
             (env0, RecordMessageProcessed);
             (env1, EndTimer "msg-1");
             (env1, RecordAlertSent false);
             (env1, RecordStreamError)]) as Hcs.
  { repeat constructor. }
  split; [exact Hcs|].
  exact (database_healthy_without_operation env0 _ env1 Hcs).
Defined.

End no_database_operation.

(** ** The database latency after successful operations, in general *)

Section database_latency.
Local Open Scope float_scope.
Implicit Types (e : Env) (σ : state) (m : PerformanceMetrics).
Implicit Types (x y latency : number).

(** NaN is absorbing, and a division by [0] is an infinity or NaN. *)

Lemma nan_mul_l y : nan * y = nan.
Proof.
  apply Prim2SF_inj. rewrite FloatAxioms.mul_spec.
  by change (Prim2SF nan) with S754_nan.
Qed.

Lemma nan_add_l y : nan + y = nan.
Proof.
  apply Prim2SF_inj. rewrite FloatAxioms.add_spec.
  by change (Prim2SF nan) with S754_nan.
Qed.

Lemma nan_div_l y : nan / y = nan.
Proof.
  apply Prim2SF_inj. rewrite FloatAxioms.div_spec.
  by change (Prim2SF nan) with S754_nan.
Qed.

Lemma div_zero x : x / 0 = infinity ∨ x / 0 = neg_infinity ∨ x / 0 = nan.
Proof.
  rewrite <- (SF2Prim_Prim2SF (x / 0)), FloatAxioms.div_spec.
  change (Prim2SF 0) with (S754_zero false).
  destruct (Prim2SF x) as [[]|[]| |[] mx ex]; cbn; auto.
Qed.

(** The three phases of [updateAverageDatabaseLatency]. *)

Lemma updateAverageDatabaseLatency_first latency m :
  latency_after 0 m →
  let m' := updateAverageDatabaseLatency latency m in
  databaseLatency m' = infinity
  ∨ databaseLatency m' = neg_infinity
  ∨ databaseLatency m' = nan.
Proof.
  intros [Hl Ho]. cbv zeta. unfold updateAverageDatabaseLatency.
  change (databaseLatency (set_databaseLatency ?v m)) with v.
  rewrite Ho. apply div_zero.
Qed.

Lemma updateAverageDatabaseLatency_second latency m :
  latency_after 1 m →
  databaseLatency (updateAverageDatabaseLatency latency m) = nan.
Proof.
  intros [Ho Hl]. unfold updateAverageDatabaseLatency.
  change (databaseLatency (set_databaseLatency ?v m)) with v.
  rewrite Ho.
  assert (databaseLatency m * (1 - 1) = nan) as ->
    by (destruct Hl as [->|[->| ->]]; reflexivity).
  by rewrite nan_add_l, nan_div_l.
Qed.

Lemma updateAverageDatabaseLatency_later latency m :
  databaseLatency m = nan →
  databaseLatency (updateAverageDatabaseLatency latency m) = nan.
Proof.
  intros Hl. unfold updateAverageDatabaseLatency.
  change (databaseLatency (set_databaseLatency ?v m)) with v.
  by rewrite Hl, nan_mul_l, nan_add_l, nan_div_l.
Qed.

Lemma recordDatabaseOperation_success_phase k latency σ :
  latency_after k σ.(this).(metrics) →
  latency_after (S k) (recordDatabaseOperation latency true σ).(this).(metrics).
Proof.
  intros Hk. set (m := σ.(this).(metrics)) in *.
  assert (∀ m', databaseLatency m'
                  = databaseLatency (updateAverageDatabaseLatency latency m) →
                databaseOperationsPerSecond m'
                  = JS.incr (databaseOperationsPerSecond m) →
                latency_after (S k) m') as Hm'; [|by apply Hm'].
  intros m' Hl Ho. unfold latency_after in *. destruct k as [|[|k]].
  - split; [|rewrite Hl; by apply updateAverageDatabaseLatency_first].
    destruct Hk as [_ Hk]. by rewrite Ho, Hk.
  - rewrite Hl. by apply updateAverageDatabaseLatency_second.
  - rewrite Hl. by apply updateAverageDatabaseLatency_later.
Qed.

Lemma latency_after_ext k m m' :
  databaseLatency m' = databaseLatency m →
  databaseOperationsPerSecond m' = databaseOperationsPerSecond m →
  latency_after k m → latency_after k m'.
Proof.
  intros Hl Ho. unfold latency_after.
  destruct k as [|[|k]]; by rewrite Hl, ?Ho.
Qed.

Lemma latency_after_database_fields k m m' :
  database_fields m' = database_fields m →
  latency_after k m → latency_after k m'.
Proof.
  intros Hf. apply latency_after_ext.
  - exact (f_equal (λ f, f.1.1) Hf).
  - exact (f_equal (λ f, f.1.2) Hf).
Qed.

Lemma step_latency_after k σ c :
  latency_after k σ.(this).(metrics) →
  latency_after ((if is_success c.2 then 1 else 0) + k)
    (step σ c).(this).(metrics).
Proof.
  intros Hk.
  destruct (is_RecordDatabaseOperation c.2) eqn:Hdb.
  - destruct c as [e [id op|id| |latency success|sym ty amt| | |success| | | | | ]];
      try discriminate.
    destruct success; simpl.
    + by apply recordDatabaseOperation_success_phase.
    + by apply (latency_after_ext k σ.(this).(metrics)).
  - assert (is_success c.2 = false) as ->
      by (destruct c as [e []]; try done; discriminate).
    apply (latency_after_database_fields k σ.(this).(metrics)); [|done].
    by apply step_database_fields.
Qed.

Lemma run_latency_after k cs σ :
  latency_after k σ.(this).(metrics) →
  latency_after (successes cs + k) (run cs σ).(this).(metrics).
Proof.
  revert k σ. induction cs as [|c cs IH]; intros k σ Hk; [done|].
  unfold successes. simpl.
  replace ((if is_success c.2 then 1 else 0)
           + sum_list (map (λ c : Env * call,
                              if is_success c.2 then 1 else 0) cs) + k)%nat
    with (successes cs + ((if is_success c.2 then 1 else 0) + k))%nat
    by (unfold successes; lia).
  apply IH. by apply step_latency_after.
Qed.

(** On a fresh monitor, whatever the calls and the latencies: after one
    successful database operation the stored latency is an infinity or
    NaN, and from the second on it is NaN. *)
Theorem databaseLatency_after_successes e0 cs :
  let m := (run cs (new_PerformanceMonitor e0)).(this).(metrics) in
  (successes cs = 1%nat →
     databaseLatency m = infinity ∨ databaseLatency m = neg_infinity
     ∨ databaseLatency m = nan)
  ∧ ((2 ≤ successes cs)%nat → databaseLatency m = nan).
Proof.
  cbv zeta.
  pose proof (run_latency_after 0 cs (new_PerformanceMonitor e0)) as H.
  rewrite Nat.add_0_r in H. specialize (H (conj eq_refl eq_refl)).
  split; intros Hn.
  - rewrite Hn in H. apply H.
  - destruct (successes cs) as [|[|n]]; [lia..|exact H].
Qed.

End database_latency.

(** * Further properties *)

(** ** Facts on numbers *)

Section number_facts.
Local Open Scope float_scope.
Implicit Types (x y : number).

(** A finite number is a zero or has a mantissa and an exponent. *)
Lemma is_finite_Prim2SF x :
  is_finite x = true →
  (∃ s, Prim2SF x = S754_zero s) ∨ (∃ s m e, Prim2SF x = S754_finite s m e).
Proof.
  unfold is_finite, is_nan, is_infinity.
  rewrite !FloatAxioms.eqb_spec, FloatAxioms.abs_spec.
  change (Prim2SF infinity) with (S754_infinity false).
  destruct (Prim2SF x) as [s|[]| |s m e]; simpl; try discriminate; eauto.
Qed.

(** The difference of a finite number with itself is [+0]. *)
Lemma sub_diag_finite x : is_finite x = true → x - x = 0.
Proof.
  intros Hx. apply Prim2SF_inj. rewrite FloatAxioms.sub_spec.
  change (Prim2SF 0) with (S754_zero false).
  destruct (is_finite_Prim2SF x Hx) as [[s ->]|(s & m & e & ->)].
  - by destruct s.
  - unfold SF64sub, SFsub. cbv zeta. by rewrite Z.sub_diag.
Qed.

(** [0 / y] is a zero or NaN. *)
Lemma zero_div y : 0 / y = 0 ∨ 0 / y = neg_zero ∨ 0 / y = nan.
Proof.
  rewrite <- (SF2Prim_Prim2SF (0 / y)), FloatAxioms.div_spec.
  change (Prim2SF 0) with (S754_zero false).
  destruct (Prim2SF y) as [[]|[]| |[] my ey]; cbn; auto.
Qed.

End number_facts.

(** ** The timer registry across calls *)

Section timers_across_calls.
Local Open Scope float_scope.
Implicit Types (e : Env) (σ : state) (operationId : string).

(** Only the calls on the timer [operationId] change its entry. *)
Lemma step_processingTimers operationId σ c :
  touches_timer operationId c.2 = false →
  (step σ c).(this).(processingTimers) !! operationId
  = σ.(this).(processingTimers) !! operationId.
Proof.
  destruct c as [e [id op|id| |latency success|sym ty amt| | |success| | | | | ]];
    simpl; intros Hc;
    rewrite ?getHealthStatus_state, ?printPerformanceReport_state;
    try reflexivity.
  - apply lookup_insert_ne. intros ->. by rewrite String.eqb_refl in Hc.
  - apply endTimer_other. intros ->. by rewrite String.eqb_refl in Hc.
  - by destruct success.
  - by rewrite recordTokenActivity_this.
  - by destruct success.
  - unfold stop. by destruct (intervalId _).
Qed.

Lemma run_processingTimers operationId cs σ :
  Forall (λ c : Env * call, touches_timer operationId c.2 = false) cs →
  (run cs σ).(this).(processingTimers) !! operationId
  = σ.(this).(processingTimers) !! operationId.
Proof.
  intros Hcs. revert σ.
  induction Hcs as [|c cs Hc _ IH]; intros σ; [done|].
  simpl. by rewrite IH, step_processingTimers.
Qed.

(** A timer measures from its latest start: when [operationId] is started
    (whether or not it was running already) and any calls follow that
    neither start nor stop it, stopping it returns the performance clock
    at the stop minus the clock at that start, and removes the entry. *)
Theorem endTimer_after_startTimer e e' operationId operation cs σ :
  Forall (λ c : Env * call, touches_timer operationId c.2 = false) cs →
  let σ' := run cs (startTimer e operationId operation σ) in
  (endTimer e' operationId σ').1 = performance_now e' - performance_now e
  ∧ (endTimer e' operationId σ').2.(this).(processingTimers) !! operationId
    = None.
Proof.
  intros Hcs. cbv zeta. split; [|apply endTimer_removes].
  unfold endTimer. rewrite (run_processingTimers operationId cs _ Hcs).
  simpl. by rewrite lookup_insert_eq.
Qed.

Lemma endTimer_after_startTimer_witness :
  let cs :=
    [(env0, StartTimer "db-slot-1" "database_slot_insert");
     (env1, EndTimer "db-slot-1");
     (env1, RecordDatabaseOperation 5 true);
     (env1, RecordMessageProcessed)] in
  let σ := startTimer env0 "msg-1" "stale" (new_PerformanceMonitor env0) in
  let σ' := run cs (startTimer env0 "msg-1" "message_processing" σ) in
  Forall (λ c : Env * call, touches_timer "msg-1" c.2 = false) cs
  ∧ (endTimer env1 "msg-1" σ').1 = performance_now env1 - performance_now env0
  ∧ (endTimer env1 "msg-1" σ').2.(this).(processingTimers) !! "msg-1" = None.
Proof.
  cbv zeta.
  assert (Forall (λ c : Env * call, touches_timer "msg-1" c.2 = false)
            [(env0, StartTimer "db-slot-1" "database_slot_insert");
             (env1, EndTimer "db-slot-1");
             (env1, RecordDatabaseOperation 5 true);
             (env1, RecordMessageProcessed)]) as Hcs.
  { repeat constructor. }
  split; [exact Hcs|].
  exact (endTimer_after_startTimer env0 env1 "msg-1" "message_processing" _
           (startTimer env0 "msg-1" "stale" (new_PerformanceMonitor env0)) Hcs).
Defined.

(** A timer that is not stopped stays registered, with its start, through
    all calls that do not restart it. *)
Theorem startTimer_stays_registered e operationId operation cs σ :
  Forall (λ c : Env * call, touches_timer operationId c.2 = false) cs →
  (run cs (startTimer e operationId operation σ)).(this).(processingTimers)
    !! operationId
  = Some {| start := performance_now e; operation := operation |}.
Proof.
  intros Hcs. rewrite (run_processingTimers operationId cs _ Hcs).
  simpl. apply lookup_insert_eq.
Qed.

Lemma startTimer_stays_registered_witness :
  let cs :=
    [(env1, RecordMessageProcessed); (env1, GetHealthStatus);
     (env1, EndTimer "db-block-9"); (env1, Stop)] in
  Forall (λ c : Env * call, touches_timer "db-block-1" c.2 = false) cs
  ∧ (run cs (startTimer env0 "db-block-1" "database_block_insert"
               (new_PerformanceMonitor env0))).(this).(processingTimers)
      !! "db-block-1"
    = Some {| start := 50; operation := "database_block_insert" |}.
Proof.
  cbv zeta.
  assert (Forall (λ c : Env * call, touches_timer "db-block-1" c.2 = false)
            [(env1, RecordMessageProcessed); (env1, GetHealthStatus);
             (env1, EndTimer "db-block-9"); (env1, Stop)]) as Hcs.
  { repeat constructor. }
  split; [exact Hcs|].
  exact (startTimer_stays_registered env0 "db-block-1"
           "database_block_insert" _ (new_PerformanceMonitor env0) Hcs).
Defined.

End timers_across_calls.

(** ** Stopping the reports, and the calls that only read *)

Section stop_and_reads.
Local Open Scope float_scope.
Implicit Types (e : Env) (σ : state).

Lemma stop_step σ c : step (stop σ) c = stop (step σ c).
Proof.
  destruct σ as [h r exns [m t0 timers iid]].
  destruct c as [e [id op|id| |latency success|sym ty amt| | |success| | | | | ]];
    simpl;
    rewrite ?getHealthStatus_state, ?printPerformanceReport_state.
  - by destruct iid.
  - unfold endTimer, stop; simpl. destruct iid; simpl;
      by destruct (timers !! id).
  - by destruct iid.
  - by destruct iid, success.
  - unfold recordTokenActivity, stop; simpl. destruct iid; simpl;
      destruct (getProperty h r m sym) as [ |t|o|n]; try done;
      by destruct (JS.truthy n).
  - by destruct iid.
  - by destruct iid.
  - by destruct iid, success.
  - by destruct iid.
  - by destruct iid.
  - by destruct iid.
  - by destruct iid.
  - by destruct iid.
Qed.

(** [stop] only clears the interval handle, and it does not matter when:
    stopping before a sequence of calls gives the state that stopping
    after it gives. What was recorded is kept and recording goes on. *)
Theorem stop_commutes_with_calls cs σ :
  run cs (stop σ) = stop (run cs σ)
  ∧ (stop σ).(this).(metrics) = σ.(this).(metrics)
  ∧ (stop σ).(heap) = σ.(heap)
  ∧ (stop σ).(this).(processingTimers) = σ.(this).(processingTimers)
  ∧ (stop σ).(this).(intervalId) = None
  ∧ stop (stop σ) = stop σ.
Proof.
  split.
  { revert σ. induction cs as [|c cs IH]; intros σ; [done|].
    simpl. by rewrite stop_step, IH. }
  destruct σ as [h r exns [m t0 timers [[]|]]]; by repeat split.
Qed.

(** [updateSystemMetrics] sets three fields from the environment. *)
Lemma updateSystemMetrics_same_but_system_metrics e σ :
  same_but_system_metrics σ.(this).(metrics)
    (updateSystemMetrics e σ).(this).(metrics).
Proof. unfold same_but_system_metrics. by repeat split. Qed.

Lemma same_but_system_metrics_trans m1 m2 m3 :
  same_but_system_metrics m1 m2 → same_but_system_metrics m2 m3 →
  same_but_system_metrics m1 m3.
Proof.
  unfold same_but_system_metrics. intros H12 H23.
  destruct_and!. repeat split; congruence.
Qed.

Lemma step_read_call σ c :
  is_read_call c.2 = true →
  step σ c = updateSystemMetrics c.1 σ
  ∨ step σ c = updateSystemMetrics c.1 (updateSystemMetrics c.1 σ).
Proof.
  destruct c as [e [id op|id| |latency success|sym ty amt| | |success| | | | | ]];
    try discriminate; intros _; simpl;
    rewrite ?getHealthStatus_state, ?printPerformanceReport_state; auto.
Qed.

(** Snapshots, health checks and reports read: whatever their number and
    order they leave every counter, average and time stamp of the
    metrics, the token tables, the timers, the start time and the
    interval handle as they are; only [memoryUsage], [cpuUsage] and
    [connectionUptime] are refreshed. *)
Theorem read_calls_frame cs σ :
  Forall (λ c : Env * call, is_read_call c.2 = true) cs →
  let σ' := run cs σ in
  same_but_system_metrics σ.(this).(metrics) σ'.(this).(metrics)
  ∧ σ'.(heap) = σ.(heap)
  ∧ σ'.(this).(processingTimers) = σ.(this).(processingTimers)
  ∧ σ'.(this).(startTime) = σ.(this).(startTime)
  ∧ σ'.(this).(intervalId) = σ.(this).(intervalId).
Proof.
  intros Hcs. cbv zeta. revert σ.
  induction Hcs as [|c cs Hc _ IH]; intros σ.
  { unfold same_but_system_metrics. by repeat split. }
  simpl. destruct (IH (step σ c)) as (Hm & Hh & Ht & Hs & Hi).
  assert (same_but_system_metrics σ.(this).(metrics)
            (step σ c).(this).(metrics)
          ∧ (step σ c).(heap) = σ.(heap)
          ∧ (step σ c).(this).(processingTimers) = σ.(this).(processingTimers)
          ∧ (step σ c).(this).(startTime) = σ.(this).(startTime)
          ∧ (step σ c).(this).(intervalId) = σ.(this).(intervalId))
    as (Hm' & Hh' & Ht' & Hs' & Hi').
  { destruct (step_read_call σ c Hc) as [-> | ->]; split_and!; try done;
      first [ apply updateSystemMetrics_same_but_system_metrics
            | eapply same_but_system_metrics_trans;
                apply updateSystemMetrics_same_but_system_metrics ]. }
  split_and!; [|congruence..].
  by eapply same_but_system_metrics_trans.
Qed.

Lemma read_calls_frame_witness :
  let cs :=
    [(env1, GetMetrics); (env1, PrintPerformanceReport);
     (env0, GetHealthStatus); (env1, UpdateSystemMetrics)] in
  let σ :=
    run [(env0, RecordTokenActivity "JUP" transaction (Some 7));
         (env0, StartTimer "msg-1" "message_processing");
         (env0, RecordAlertSent false)] (new_PerformanceMonitor env0) in
  Forall (λ c : Env * call, is_read_call c.2 = true) cs
  ∧ alertsFailedToSend (run cs σ).(this).(metrics) = 1
  ∧ (run cs σ).(heap) = σ.(heap)
  ∧ (run cs σ).(this).(processingTimers) = σ.(this).(processingTimers).
Proof.
  cbv zeta.
  assert (Forall (λ c : Env * call, is_read_call c.2 = true)
            [(env1, GetMetrics); (env1, PrintPerformanceReport);
             (env0, GetHealthStatus); (env1, UpdateSystemMetrics)]) as Hcs.
  { repeat constructor. }
  split; [exact Hcs|].
  pose proof (read_calls_frame _
    (run [(env0, RecordTokenActivity "JUP" transaction (Some 7));
          (env0, StartTimer "msg-1" "message_processing");
          (env0, RecordAlertSent false)] (new_PerformanceMonitor env0)) Hcs)
    as (Hm & Hh & Ht & _).
  split; [|by split].
  unfold same_but_system_metrics in Hm. destruct_and!.
  etrans; [eassumption|reflexivity].
Defined.

End stop_and_reads.

(** ** The health status as a whole *)

Section health_status.
Local Open Scope float_scope.
Implicit Types (e : Env) (σ : state) (m : PerformanceMetrics).
Implicit Types (issues : list Issue).

(** Each check pushes one issue when its verdict is not [healthy], and
    none when it is. *)

Lemma checkDatabaseHealth_issues m issues :
  ∃ pushed, (checkDatabaseHealth m issues).2 = issues ++ pushed
            ∧ length pushed = non_healthy (checkDatabaseHealth m issues).1.
Proof.
  unfold checkDatabaseHealth. repeat case_match; simpl;
    first [ by eexists [_] | exists []; by rewrite app_nil_r ].
Qed.

Lemma checkStreamHealth_issues e m issues :
  ∃ pushed, (checkStreamHealth e m issues).2 = issues ++ pushed
            ∧ length pushed = non_healthy (checkStreamHealth e m issues).1.
Proof.
  unfold checkStreamHealth. repeat case_match; simpl;
    first [ by eexists [_] | exists []; by rewrite app_nil_r ].
Qed.

Lemma checkMemoryHealth_issues m issues :
  ∃ pushed, (checkMemoryHealth m issues).2 = issues ++ pushed
            ∧ length pushed = non_healthy (checkMemoryHealth m issues).1.
Proof.
  unfold checkMemoryHealth. repeat case_match; simpl;
    first [ by eexists [_] | exists []; by rewrite app_nil_r ].
Qed.

Lemma checkAlertHealth_issues m issues :
  ∃ pushed, (checkAlertHealth m issues).2 = issues ++ pushed
            ∧ length pushed = non_healthy (checkAlertHealth m issues).1.
Proof.
  unfold checkAlertHealth. repeat case_match; simpl;
    first [ by eexists [_] | exists []; by rewrite app_nil_r ].
Qed.

(** The status that [getHealthStatus] returns, check by check. *)
Lemma getHealthStatus_result e σ :
  let m := (updateSystemMetrics e σ).(this).(metrics) in
  let r1 := checkDatabaseHealth m [] in
  let r2 := checkStreamHealth e m r1.2 in
  let r3 := checkMemoryHealth m r2.2 in
  let r4 := checkAlertHealth m r3.2 in
  (getHealthStatus e σ).1
  = {| overall :=
         if includes [r1.1; r2.1; r3.1; r4.1] critical then critical
         else if includes [r1.1; r2.1; r3.1; r4.1] warning then warning
         else healthy;
       services := {| database := r1.1; grpcStream := r2.1;
                      memory := r3.1; alertSystem := r4.1 |};
       issues := r4.2;
       uptime := connectionUptime m |}.
Proof.
  cbv zeta. unfold getHealthStatus.
  destruct (checkDatabaseHealth _ _) as [dbHealth issues1]. simpl.
  destruct (checkStreamHealth _ _ _) as [streamHealth issues2]. simpl.
  destruct (checkMemoryHealth _ _) as [memoryHealth issues3]. simpl.
  destruct (checkAlertHealth _ _) as [alertHealth issues4]. reflexivity.
Qed.

(** The overall verdict is the worst of the four: [critical] exactly when
    some subsystem is, [healthy] exactly when all four are, and [warning]
    exactly when none is critical and some is not healthy. *)
Theorem getHealthStatus_overall e σ :
  let h := (getHealthStatus e σ).1 in
  let sv := services h in
  (overall h = critical
   ↔ database sv = critical ∨ grpcStream sv = critical
     ∨ memory sv = critical ∨ alertSystem sv = critical)
  ∧ (overall h = healthy
     ↔ database sv = healthy ∧ grpcStream sv = healthy
       ∧ memory sv = healthy ∧ alertSystem sv = healthy)
  ∧ (overall h = warning
     ↔ database sv ≠ critical ∧ grpcStream sv ≠ critical
       ∧ memory sv ≠ critical ∧ alertSystem sv ≠ critical
       ∧ (database sv = warning ∨ grpcStream sv = warning
          ∨ memory sv = warning ∨ alertSystem sv = warning)).
Proof.
  cbv zeta. rewrite getHealthStatus_result. cbv zeta. simpl.
  destruct (checkDatabaseHealth _ _).1, (checkStreamHealth _ _ _).1,
    (checkMemoryHealth _ _).1, (checkAlertHealth _ _).1;
    vm_compute; intuition congruence.
Qed.

(** The issues are as many as the subsystems that are not healthy, and
    there is none exactly when the overall verdict is [healthy]. *)
Theorem getHealthStatus_issues e σ :
  let h := (getHealthStatus e σ).1 in
  let sv := services h in
  length (issues h)
  = (non_healthy (database sv) + non_healthy (grpcStream sv)
     + non_healthy (memory sv) + non_healthy (alertSystem sv))%nat
  ∧ (issues h = [] ↔ overall h = healthy).
Proof.
  cbv zeta. rewrite getHealthStatus_result. cbv zeta.
  cbn [issues services overall database grpcStream memory alertSystem].
  set (m := (updateSystemMetrics e σ).(this).(metrics)).
  destruct (checkDatabaseHealth_issues m []) as (p1 & E1 & L1).
  destruct (checkStreamHealth_issues e m (checkDatabaseHealth m []).2)
    as (p2 & E2 & L2).
  destruct (checkMemoryHealth_issues m
              (checkStreamHealth e m (checkDatabaseHealth m []).2).2)
    as (p3 & E3 & L3).
  destruct (checkAlertHealth_issues m
              (checkMemoryHealth m
                 (checkStreamHealth e m (checkDatabaseHealth m []).2).2).2)
    as (p4 & E4 & L4).
  apply (f_equal length) in E1, E2, E3, E4.
  rewrite length_app in E1, E2, E3, E4. simpl in E1.
  assert (length (checkAlertHealth m
                    (checkMemoryHealth m
                       (checkStreamHealth e m
                          (checkDatabaseHealth m []).2).2).2).2
          = (non_healthy (checkDatabaseHealth m []).1
             + non_healthy (checkStreamHealth e m (checkDatabaseHealth m []).2).1
             + non_healthy
                 (checkMemoryHealth m
                    (checkStreamHealth e m (checkDatabaseHealth m []).2).2).1
             + non_healthy
                 (checkAlertHealth m
                    (checkMemoryHealth m
                       (checkStreamHealth e m
                          (checkDatabaseHealth m []).2).2).2).1)%nat)
    as Hlen by lia.
  split; [exact Hlen|].
  rewrite <- length_zero_iff_nil, Hlen. clear.
  destruct (checkDatabaseHealth _ _).1, (checkStreamHealth _ _ _).1,
    (checkMemoryHealth _ _).1, (checkAlertHealth _ _).1;
    vm_compute; intuition congruence.
Qed.

(** The memory verdict is decided by the heap usage read at the request
    and by nothing recorded: [warning] when it exceeds 512 MB, [healthy]
    otherwise, never [critical]. *)
Theorem memory_verdict e σ :
  memory (services (getHealthStatus e σ).1)
  = (if JS.gt (heapUsed (process_memoryUsage e))
               PERFORMANCE_THRESHOLDS.MAX_MEMORY_USAGE
     then warning else healthy)
  ∧ memory (services (getHealthStatus e σ).1) ≠ critical.
Proof.
  rewrite getHealthStatus_services. cbn [memory].
  unfold checkMemoryHealth.
  change (heapUsed (memoryUsage (updateSystemMetrics e σ).(this).(metrics)))
    with (heapUsed (process_memoryUsage e)).
  by destruct (JS.gt _ _).
Qed.

End health_status.

(** ** Alerts that never failed *)

Section alerts_without_failure.
Local Open Scope float_scope.
Implicit Types (e : Env) (σ : state) (m : PerformanceMetrics).

(** Only a failed alert changes [alertsFailedToSend]. *)
Lemma step_alertsFailedToSend σ c :
  is_failed_alert c.2 = false →
  alertsFailedToSend (step σ c).(this).(metrics)
  = alertsFailedToSend σ.(this).(metrics).
Proof.
  destruct c as [e [id op|id| |latency success|sym ty amt| | |success| | | | | ]];
    simpl; intros Hc;
    rewrite ?getHealthStatus_state, ?printPerformanceReport_state;
    try reflexivity.
  - unfold endTimer. by destruct (_ !! _).
  - by destruct success.
  - by rewrite recordTokenActivity_this.
  - by destruct success.
  - unfold stop. by destruct (intervalId _).
Qed.

Lemma run_alertsFailedToSend cs σ :
  Forall (λ c : Env * call, is_failed_alert c.2 = false) cs →
  alertsFailedToSend (run cs σ).(this).(metrics)
  = alertsFailedToSend σ.(this).(metrics).
Proof.
  intros Hcs. revert σ.
  induction Hcs as [|c cs Hc _ IH]; intros σ; [done|].
  simpl. by rewrite IH, step_alertsFailedToSend.
Qed.

(** With no failed alert the failure rate is [0] over something: a zero
    or NaN, which exceeds neither bound. *)
Lemma checkAlertHealth_no_failure m issues :
  alertsFailedToSend m = 0 →
  checkAlertHealth m issues = (healthy, issues).
Proof.
  intros Hfailed. unfold checkAlertHealth. rewrite Hfailed.
  destruct (JS.strict_eq _ _); [done|].
  by destruct (zero_div (alertsSent m + 0)) as [->|[->| ->]].
Qed.

(** As long as no alert has failed to send, however many were sent and
    whatever else was recorded, the alert verdict is [healthy]. *)
Theorem alertSystem_healthy_without_failure e0 cs e :
  Forall (λ c : Env * call, is_failed_alert c.2 = false) cs →
  alertSystem (services (getHealthStatus e
                           (run cs (new_PerformanceMonitor e0))).1)
  = healthy.
Proof.
  intros Hcs. rewrite getHealthStatus_services. cbn [alertSystem].
  rewrite checkAlertHealth_no_failure; [done|].
  exact (run_alertsFailedToSend cs (new_PerformanceMonitor e0) Hcs).
Qed.

Lemma alertSystem_healthy_without_failure_witness :
  let cs :=
    [(env0, RecordAlertSent true); (env0, RecordStreamError);
     (env1, RecordAlertSent true); (env1, RecordDatabaseOperation 3 false)] in
  Forall (λ c : Env * call, is_failed_alert c.2 = false) cs
  ∧ alertSystem (services (getHealthStatus env1
                             (run cs (new_PerformanceMonitor env0))).1)
    = healthy.
Proof.
  cbv zeta.
  assert (Forall (λ c : Env * call, is_failed_alert c.2 = false)
            [(env0, RecordAlertSent true); (env0, RecordStreamError);
             (env1, RecordAlertSent true);
             (env1, RecordDatabaseOperation 3 false)]) as Hcs.
  { repeat constructor. }
  split; [exact Hcs|].
  exact (alertSystem_healthy_without_failure env0 _ env1 Hcs).
Defined.

End alerts_without_failure.

(** ** Divisions by zero and NaN in the running figures *)

Section running_figures.
Local Open Scope float_scope.
Implicit Types (e : Env) (σ : state) (m : PerformanceMetrics).
Implicit Types (operationId : string).

(** A timer stopped while no message has been counted divides by the
    count [0]: the average processing time becomes an infinity or NaN,
    whatever the elapsed time. *)
Theorem endTimer_before_first_message e operationId σ :
  is_Some (σ.(this).(processingTimers) !! operationId) →
  totalMessagesProcessed σ.(this).(metrics) = 0 →
  not_finite
    (averageProcessingTime (endTimer e operationId σ).2.(this).(metrics)).
Proof.
  intros [timer Htimer] Htotal. unfold endTimer. rewrite Htimer.
  change (not_finite
            ((averageProcessingTime σ.(this).(metrics)
                * (totalMessagesProcessed σ.(this).(metrics) - 1)
              + (performance_now e - start timer))
             / totalMessagesProcessed σ.(this).(metrics))).
  rewrite Htotal. apply div_zero.
Qed.

Lemma endTimer_before_first_message_witness :
  let σ :=
    startTimer env0 "db-account-1" "database_account_insert"
      (startTimer env0 "msg-1" "message_processing"
         (new_PerformanceMonitor env0)) in
  is_Some (σ.(this).(processingTimers) !! "db-account-1")
  ∧ totalMessagesProcessed σ.(this).(metrics) = 0
  ∧ not_finite
      (averageProcessingTime
         (endTimer env1 "db-account-1" σ).2.(this).(metrics)).
Proof.
  cbv zeta.
  assert (is_Some ((startTimer env0 "db-account-1" "database_account_insert"
                      (startTimer env0 "msg-1" "message_processing"
                         (new_PerformanceMonitor env0))).(this).(processingTimers)
                     !! "db-account-1")) as Hid by (by eexists).
  split; [exact Hid|]. split; [reflexivity|].
  exact (endTimer_before_first_message env1 "db-account-1" _ Hid eq_refl).
Defined.

(** Only [endTimer] writes the average processing time, and a NaN in it
    is kept by the fold. *)
Lemma step_averageProcessingTime_nan σ c :
  averageProcessingTime σ.(this).(metrics) = nan →
  averageProcessingTime (step σ c).(this).(metrics) = nan.
Proof.
  intros Hnan.
  destruct c as [e [id op|id| |latency success|sym ty amt| | |success| | | | | ]];
    simpl;
    rewrite ?getHealthStatus_state, ?printPerformanceReport_state;
    try exact Hnan.
  - unfold endTimer. destruct (_ !! _) as [timer|]; [|exact Hnan].
    change (((averageProcessingTime σ.(this).(metrics)
                * (totalMessagesProcessed σ.(this).(metrics) - 1)
              + (performance_now e - start timer))
             / totalMessagesProcessed σ.(this).(metrics)) = nan).
    by rewrite Hnan, nan_mul_l, nan_add_l, nan_div_l.
  - by destruct success.
  - by rewrite recordTokenActivity_this.
  - by destruct success.
  - unfold stop. by destruct (intervalId _).
Qed.

Lemma step_databaseLatency_nan σ c :
  databaseLatency σ.(this).(metrics) = nan →
  databaseLatency (step σ c).(this).(metrics) = nan.
Proof.
  intros Hnan.
  destruct c as [e [id op|id| |latency success|sym ty amt| | |success| | | | | ]];
    simpl;
    rewrite ?getHealthStatus_state, ?printPerformanceReport_state;
    try exact Hnan.
  - unfold endTimer. by destruct (_ !! _).
  - destruct success; [|exact Hnan].
    by apply (updateAverageDatabaseLatency_later latency σ.(this).(metrics)).
  - by rewrite recordTokenActivity_this.
  - by destruct success.
  - unfold stop. by destruct (intervalId _).
Qed.

(** Once an average is NaN it stays NaN: no later call, with whatever
    duration or latency, brings the average processing time or the
    database latency back to a number. *)
Theorem averages_stay_nan cs σ :
  (averageProcessingTime σ.(this).(metrics) = nan →
   averageProcessingTime (run cs σ).(this).(metrics) = nan)
  ∧ (databaseLatency σ.(this).(metrics) = nan →
     databaseLatency (run cs σ).(this).(metrics) = nan).
Proof.
  split; revert σ; induction cs as [|c cs IH]; intros σ Hnan; try done;
    simpl; apply IH.
  - by apply step_averageProcessingTime_nan.
  - by apply step_databaseLatency_nan.
Qed.

(** A message recorded at the very clock reading of the construction has
    an uptime of [0] seconds: the message rate becomes an infinity or
    NaN. *)
Theorem recordMessageProcessed_at_start e σ :
  is_finite σ.(this).(startTime) = true →
  Date_now e = σ.(this).(startTime) →
  not_finite (messagesPerSecond (recordMessageProcessed e σ).(this).(metrics)).
Proof.
  intros Hfinite Hnow.
  change (not_finite
            (JS.incr (totalMessagesProcessed σ.(this).(metrics))
             / ((Date_now e - σ.(this).(startTime)) / 1000))).
  rewrite Hnow, (sub_diag_finite _ Hfinite).
  change (0 / 1000) with 0. apply div_zero.
Qed.

Lemma recordMessageProcessed_at_start_witness :
  is_finite (new_PerformanceMonitor env0).(this).(startTime) = true
  ∧ Date_now env1 = (new_PerformanceMonitor env0).(this).(startTime)
  ∧ not_finite
      (messagesPerSecond
         (recordMessageProcessed env1
            (new_PerformanceMonitor env0)).(this).(metrics)).
Proof.
  split; [reflexivity|]. split; [reflexivity|].
  exact (recordMessageProcessed_at_start env1 (new_PerformanceMonitor env0)
           eq_refl eq_refl).
Defined.

End running_figures.

(** ** The counters of a token *)

Section token_counters.
Local Open Scope float_scope.
Implicit Types (e : Env) (σ : state) (sym : string) (t : TokenMetrics).

(** The entry of a configured symbol in a new monitor. *)
Lemma new_lookupToken e0 sym :
  sym ∈ Tokens.symbols →
  ∃ t, lookupToken (new_PerformanceMonitor e0).(heap)
         (new_PerformanceMonitor e0).(this).(metrics) sym = Some t
       ∧ symbol t = sym
       ∧ accountUpdates t = 0 ∧ transactions t = 0
       ∧ averageTransactionSize t = 0 ∧ largestTransaction t = 0.
Proof.
  unfold Tokens.symbols, Tokens.values. simpl. intros Hsym.
  repeat (apply elem_of_cons in Hsym as [->|Hsym];
          [eexists; split; [reflexivity|by repeat split]|]).
  by apply elem_of_nil in Hsym.
Qed.

(** What one call does to the counters of the entry of [sym]. *)
Lemma step_token_counters σ c sym t :
  lookupToken σ.(heap) σ.(this).(metrics) sym = Some t →
  ∃ t', lookupToken (step σ c).(heap) (step σ c).(this).(metrics) sym
          = Some t'
        ∧ symbol t' = symbol t
        ∧ accountUpdates t'
          = (if is_activity sym account c.2
             then JS.incr (accountUpdates t) else accountUpdates t)
        ∧ transactions t'
          = (if is_activity sym transaction c.2
             then JS.incr (transactions t) else transactions t).
Proof.
  intros Ht.
  destruct (c.2) as [id op|id| |latency success|s ty amt| | |success| | | | | ]
    eqn:Hc.
  5: { destruct c as [e c]. simpl in Hc. subst c. simpl.
       destruct (String.eqb_spec s sym) as [->|Hne].
       - destruct (recordTokenActivity_entry e sym ty amt σ t Ht) as [Ht' _].
         eexists. split; [exact Ht'|].
         destruct ty; [by repeat split|].
         unfold updateTokenMetric.
         destruct amt as [a|]; [destruct (JS.truthy a)|];
           repeat case_match; by repeat split.
       - exists t. split.
         + rewrite <- Ht. apply recordTokenActivity_other. congruence.
         + by destruct ty. }
  all: exists t; split; [|by repeat split].
  all: unfold lookupToken; rewrite step_tokenMetrics, step_heap; [done|].
  all: intros s ty amt Heq; rewrite Heq in Hc; discriminate.
Qed.

Lemma count_calls_cons p c cs :
  count_calls p (c :: cs)
  = ((if p c.2 then 1 else 0) + count_calls p cs)%nat.
Proof. unfold count_calls. simpl. by destruct (p c.2). Qed.

Lemma run_token_counters cs σ sym t :
  lookupToken σ.(heap) σ.(this).(metrics) sym = Some t →
  ∃ t', lookupToken (run cs σ).(heap) (run cs σ).(this).(metrics) sym
          = Some t'
        ∧ symbol t' = symbol t
        ∧ accountUpdates t'
          = Nat.iter (count_calls (is_activity sym account) cs) JS.incr
              (accountUpdates t)
        ∧ transactions t'
          = Nat.iter (count_calls (is_activity sym transaction) cs) JS.incr
              (transactions t).
Proof.
  revert σ t. induction cs as [|c cs IH]; intros σ t Ht.
  { exists t. by repeat split. }
  destruct (step_token_counters σ c sym t Ht) as (t1 & Ht1 & Hs1 & Ha1 & Hx1).
  destruct (IH _ _ Ht1) as (t' & Ht' & Hs' & Ha' & Hx').
  exists t'. split; [exact Ht'|]. split; [congruence|].
  rewrite !count_calls_cons, Ha', Hx', Ha1, Hx1.
  assert (∀ n (x : number),
            Nat.iter n JS.incr (JS.incr x) = Nat.iter (1 + n) JS.incr x)
    as Hiter by (intros n x; symmetry; apply (Nat.iter_succ_r n JS.incr x)).
  split.
  - destruct (is_activity sym account c.2); [apply Hiter|reflexivity].
  - destruct (is_activity sym transaction c.2); [apply Hiter|reflexivity].
Qed.

(** The counters count: after any calls on a new monitor, the entry of a
    configured symbol still carries that symbol, its [accountUpdates] is
    [0] incremented once per account update recorded for the symbol, and
    its [transactions] is [0] incremented once per transaction recorded
    for it; recordings for other symbols and all other calls do not
    count. *)
Theorem token_counters_count e0 cs sym :
  sym ∈ Tokens.symbols →
  let σ := run cs (new_PerformanceMonitor e0) in
  ∃ t, lookupToken σ.(heap) σ.(this).(metrics) sym = Some t
       ∧ symbol t = sym
       ∧ accountUpdates t
         = Nat.iter (count_calls (is_activity sym account) cs) JS.incr 0
       ∧ transactions t
         = Nat.iter (count_calls (is_activity sym transaction) cs) JS.incr 0.
Proof.
  intros Hsym. cbv zeta.
  destruct (new_lookupToken e0 sym Hsym) as (t0 & Ht0 & Hs0 & Ha0 & Hx0 & _).
  destruct (run_token_counters cs _ sym t0 Ht0) as (t & Ht & Hs & Ha & Hx).
  exists t. split; [exact Ht|]. split; [congruence|].
  by rewrite Ha, Hx, Ha0, Hx0.
Qed.

Lemma token_counters_count_witness :
  let cs :=
    [(env0, RecordTokenActivity "SOL" account None);
     (env0, RecordTokenActivity "USDC" account None);
     (env0, RecordTokenActivity "SOL" account None);
     (env1, RecordMessageProcessed);
     (env1, RecordTokenActivity "SOL" account None);
     (env1, RecordTokenActivity "SOL" account None);
     (env1, RecordTokenActivity "SOL" account None)] in
  let σ := run cs (new_PerformanceMonitor env0) in
  "SOL" ∈ Tokens.symbols
  ∧ ∃ t, lookupToken σ.(heap) σ.(this).(metrics) "SOL" = Some t
         ∧ symbol t = "SOL"
         ∧ accountUpdates t = 5
         ∧ transactions t = 0.
Proof.
  cbv zeta.
  assert ("SOL" ∈ Tokens.symbols) as Hsym by (vm_compute; set_solver).
  split; [exact Hsym|].
  exact (token_counters_count env0
           [(env0, RecordTokenActivity "SOL" account None);
            (env0, RecordTokenActivity "USDC" account None);
            (env0, RecordTokenActivity "SOL" account None);
            (env1, RecordMessageProcessed);
            (env1, RecordTokenActivity "SOL" account None);
            (env1, RecordTokenActivity "SOL" account None);
            (env1, RecordTokenActivity "SOL" account None)] "SOL" Hsym).
Defined.

End token_counters.

(** ** The order on numbers, and the largest transaction *)

Section largest_transaction.
Local Open Scope float_scope.
Implicit Types (e : Env) (σ : state) (sym : string) (t : TokenMetrics).
Implicit Types (x y z a : number).

Lemma SFcompare_swap (f g : spec_float) :
  SFcompare g f = option_map CompOpp (SFcompare f g).
Proof.
  assert (∀ mf mg, Pos.compare_cont Eq mg mf
                   = CompOpp (Pos.compare_cont Eq mf mg)) as Hpos.
  { intros mf mg. symmetry. exact (Pos.compare_cont_antisym mf mg Eq). }
  destruct f as [[]|[]| |[] mf ef], g as [[]|[]| |[] mg eg]; simpl;
    try reflexivity.
  all: rewrite (Z.compare_antisym ef eg), (Hpos mf mg).
  all: destruct (ef ?= eg)%Z; simpl; try reflexivity.
  all: destruct (Pos.compare_cont Eq mf mg); reflexivity.
Qed.

Lemma SFleb_trans (f g h : spec_float) :
  SFleb f g = true → SFleb g h = true → SFleb f h = true.
Proof.
  unfold SFleb.
  destruct f as [[]|[]| |[] mf ef], g as [[]|[]| |[] mg eg],
    h as [[]|[]| |[] mh eh];
    simpl; try (intros; congruence); try reflexivity.
  all: rewrite !Pos.compare_cont_spec; simpl.
  all: destruct (Z.compare_spec ef eg), (Z.compare_spec eg eh),
         (Z.compare_spec ef eh);
       subst; try lia; try (intros; congruence); try reflexivity.
  all: destruct (Pos.compare_spec mf mg), (Pos.compare_spec mg mh),
         (Pos.compare_spec mf mh);
       subst; simpl; try lia; try (intros; congruence); try reflexivity.
Qed.

(** [<=] on numbers is transitive; it is reflexive on the numbers that
    are not NaN, and on those a number not below another is at least
    it. *)

Lemma leb_trans x y z : (x <=? y) = true → (y <=? z) = true → (x <=? z) = true.
Proof. rewrite !FloatAxioms.leb_spec. apply SFleb_trans. Qed.

Lemma leb_refl x : (x =? x) = true → (x <=? x) = true.
Proof.
  rewrite FloatAxioms.eqb_spec, FloatAxioms.leb_spec. unfold SFeqb, SFleb.
  by destruct (SFcompare _ _) as [[]|].
Qed.

Lemma ltb_leb x y : (x <? y) = true → (x <=? y) = true.
Proof.
  rewrite FloatAxioms.ltb_spec, FloatAxioms.leb_spec. unfold SFltb, SFleb.
  by destruct (SFcompare _ _) as [[]|].
Qed.

Lemma not_ltb_leb x y :
  (x =? x) = true → (y =? y) = true → (x <? y) = false → (y <=? x) = true.
Proof.
  rewrite !FloatAxioms.eqb_spec, FloatAxioms.ltb_spec, FloatAxioms.leb_spec.
  unfold SFeqb, SFltb, SFleb.
  rewrite (SFcompare_swap (Prim2SF x) (Prim2SF y)).
  destruct (Prim2SF x) as [[]|[]| |[] mx ex],
    (Prim2SF y) as [[]|[]| |[] my ey]; simpl; try done.
  all: intros _ _; by destruct (ex ?= ey)%Z, (Pos.compare_cont Eq mx my).
Qed.

(** A truthy number is not NaN. *)
Lemma truthy_not_nan a : JS.truthy a = true → (a =? a) = true.
Proof.
  unfold JS.truthy, is_nan. destruct (a =? a); [done|].
  by rewrite orb_true_r.
Qed.


Lemma largest_step_same c sym t t' :
  (largestTransaction t =? largestTransaction t) = true →
  largestTransaction t' = largestTransaction t →
  (∀ a, c = RecordTokenActivity sym transaction (Some a) →
        JS.truthy a = false) →
  largest_step c sym t t'.
Proof.
  intros Hnum Heq Hc. unfold largest_step. rewrite Heq.
  split_and!; [done|by apply leb_refl| |by left].
  intros a Ha Htruthy. by rewrite (Hc a Ha) in Htruthy.
Qed.

Lemma updateTokenMetric_largest_step e sym ty amt t :
  (largestTransaction t =? largestTransaction t) = true →
  largest_step (RecordTokenActivity sym ty amt) sym t
    (updateTokenMetric e ty amt t).
Proof.
  intros Hnum.
  destruct ty; [by apply largest_step_same|].
  destruct amt as [a|]; [|by apply largest_step_same].
  destruct (JS.truthy a) eqn:Ha.
  2: { apply largest_step_same; [done| |by intros a' [= ->]].
       unfold updateTokenMetric. by rewrite Ha. }
  unfold updateTokenMetric. rewrite Ha.
  change (largestTransaction
            (set_averageTransactionSize ?v
               (set_transactions ?w (set_lastActivity ?u t))))
    with (largestTransaction t).
  unfold largest_step, JS.gt.
  destruct (largestTransaction t <? a) eqn:Hlt.
  - change (largestTransaction (set_largestTransaction a ?t0)) with a.
    pose proof (truthy_not_nan a Ha) as Hnuma.
    split_and!; [done|by apply ltb_leb| |].
    + intros a' [= <-] _. by apply leb_refl.
    + right. by exists a.
  - change (largestTransaction
              (set_averageTransactionSize ?v
                 (set_transactions ?w (set_lastActivity ?u t))))
      with (largestTransaction t).
    split_and!; [done|by apply leb_refl| |by left].
    intros a' [= <-] _. apply not_ltb_leb; [done| |done].
    by apply truthy_not_nan.
Qed.

Lemma step_largestTransaction σ c sym t :
  lookupToken σ.(heap) σ.(this).(metrics) sym = Some t →
  (largestTransaction t =? largestTransaction t) = true →
  ∃ t', lookupToken (step σ c).(heap) (step σ c).(this).(metrics) sym
          = Some t'
        ∧ largest_step c.2 sym t t'.
Proof.
  intros Ht Hnum.
  destruct (c.2) as [id op|id| |latency success|s ty amt| | |success| | | | | ]
    eqn:Hc.
  5: { destruct c as [e c]. simpl in Hc. subst c. simpl.
       destruct (String.eqb_spec s sym) as [->|Hne].
       - destruct (recordTokenActivity_entry e sym ty amt σ t Ht) as [Ht' _].
         eexists. split; [exact Ht'|].
         by apply updateTokenMetric_largest_step.
       - exists t. split.
         + rewrite <- Ht. apply recordTokenActivity_other. congruence.
         + apply largest_step_same; [done..|]. intros a [= ? ? ?]. congruence. }
  all: exists t; split; [|by apply largest_step_same].
  all: unfold lookupToken; rewrite step_tokenMetrics, step_heap; [done|].
  all: intros s ty amt Heq; rewrite Heq in Hc; discriminate.
Qed.

Lemma run_largestTransaction cs σ sym t :
  lookupToken σ.(heap) σ.(this).(metrics) sym = Some t →
  (largestTransaction t =? largestTransaction t) = true →
  ∃ t', lookupToken (run cs σ).(heap) (run cs σ).(this).(metrics) sym
          = Some t'
        ∧ (largestTransaction t' =? largestTransaction t') = true
        ∧ (largestTransaction t <=? largestTransaction t') = true
        ∧ (∀ e a, (e, RecordTokenActivity sym transaction (Some a)) ∈ cs →
                  JS.truthy a = true →
                  (a <=? largestTransaction t') = true)
        ∧ (largestTransaction t' = largestTransaction t
           ∨ ∃ e a, (e, RecordTokenActivity sym transaction (Some a)) ∈ cs
                    ∧ JS.truthy a = true ∧ largestTransaction t' = a).
Proof.
  revert σ t. induction cs as [|c cs IH]; intros σ t Ht Hnum.
  { exists t. split_and!; [done|done|by apply leb_refl| |by left].
    intros e a Hin. by apply elem_of_nil in Hin. }
  destruct (step_largestTransaction σ c sym t Ht Hnum)
    as (t1 & Ht1 & Hnum1 & Hle1 & Hrec1 & Hset1).
  destruct (IH _ _ Ht1 Hnum1) as (t' & Ht' & Hnum' & Hle' & Hrec' & Hset').
  exists t'. split_and!; [exact Ht'|exact Hnum'|by eapply leb_trans| |].
  - intros e a [Hc|Hin]%elem_of_cons Ha.
    + eapply leb_trans; [|exact Hle']. apply Hrec1; [|done]. by rewrite <- Hc.
    + by apply (Hrec' e a).
  - destruct Hset' as [Heq|(e & a & Hin & Ha & Heq)].
    + rewrite Heq. destruct Hset1 as [Heq1|(a & Hc & Ha & Heq1)]; [by left|].
      right. exists c.1, a. split_and!; [|done..].
      rewrite <- Hc. destruct c. apply list_elem_of_here.
    + right. exists e, a. split_and!; [|done..]. by apply list_elem_of_further.
Qed.

(** The largest transaction of a token is the maximum of [0] and the
    non-zero amounts recorded for it: after any calls on a new monitor it
    is at least [0] and at least every non-zero amount of a transaction
    recorded for the symbol, and it is [0] or one of these amounts. *)
Theorem largestTransaction_is_maximum e0 cs sym :
  sym ∈ Tokens.symbols →
  let σ := run cs (new_PerformanceMonitor e0) in
  ∃ t, lookupToken σ.(heap) σ.(this).(metrics) sym = Some t
       ∧ (0 <=? largestTransaction t) = true
       ∧ (∀ e a, (e, RecordTokenActivity sym transaction (Some a)) ∈ cs →
                 JS.truthy a = true →
                 (a <=? largestTransaction t) = true)
       ∧ (largestTransaction t = 0
          ∨ ∃ e a, (e, RecordTokenActivity sym transaction (Some a)) ∈ cs
                   ∧ JS.truthy a = true ∧ largestTransaction t = a).
Proof.
  intros Hsym. cbv zeta.
  destruct (new_lookupToken e0 sym Hsym) as (t0 & Ht0 & _ & _ & _ & _ & Hl0).
  destruct (run_largestTransaction cs _ sym t0 Ht0)
    as (t & Ht & _ & Hle & Hrec & Hset); [by rewrite Hl0|].
  rewrite Hl0 in Hle, Hset. by exists t.
Qed.

Lemma largestTransaction_is_maximum_witness :
  let cs :=
    [(env0, RecordTokenActivity "BONK" transaction (Some 250));
     (env0, RecordTokenActivity "BONK" transaction None);
     (env1, RecordTokenActivity "BONK" transaction (Some 4000));
     (env1, RecordTokenActivity "JUP" transaction (Some 90000));
     (env1, RecordTokenActivity "BONK" transaction (Some 30))] in
  let σ := run cs (new_PerformanceMonitor env0) in
  "BONK" ∈ Tokens.symbols
  ∧ ∃ t, lookupToken σ.(heap) σ.(this).(metrics) "BONK" = Some t
         ∧ (0 <=? largestTransaction t) = true
         ∧ (∀ e a,
              (e, RecordTokenActivity "BONK" transaction (Some a)) ∈ cs →
              JS.truthy a = true →
              (a <=? largestTransaction t) = true)
         ∧ (largestTransaction t = 0
            ∨ ∃ e a,
                (e, RecordTokenActivity "BONK" transaction (Some a)) ∈ cs
                ∧ JS.truthy a = true ∧ largestTransaction t = a).
Proof.
  cbv zeta.
  assert ("BONK" ∈ Tokens.symbols) as Hsym by (vm_compute; set_solver).
  split; [exact Hsym|].
  exact (largestTransaction_is_maximum env0 _ "BONK" Hsym).
Defined.

(** The entry of the witness: the largest of 250, 4000 and 30. *)
Example largestTransaction_BONK :
  let σ :=
    run [(env0, RecordTokenActivity "BONK" transaction (Some 250));
         (env0, RecordTokenActivity "BONK" transaction None);
         (env1, RecordTokenActivity "BONK" transaction (Some 4000));
         (env1, RecordTokenActivity "JUP" transaction (Some 90000));
         (env1, RecordTokenActivity "BONK" transaction (Some 30))]
        (new_PerformanceMonitor env0) in
  largestTransaction <$> lookupToken σ.(heap) σ.(this).(metrics) "BONK"
  = Some 4000.
Proof. reflexivity. Qed.

End largest_transaction.

(** ** The configured tokens *)

Section configured_tokens.
Local Open Scope float_scope.
Implicit Types (e : Env) (σ : state) (mint : string).
Implicit Types (token : Tokens.TokenConfig).

(** Every configured token is found by its own mint address. *)
Lemma getTokenByMint_own token :
  token ∈ Tokens.values →
  getTokenByMint (Tokens.mintAddress token) = Some token.
Proof.
  unfold Tokens.values. simpl. intros Hin.
  repeat (apply elem_of_cons in Hin as [->|Hin]; [reflexivity|]).
  by apply elem_of_nil in Hin.
Qed.

(** [getTokenByMint] finds a token exactly when it is a configured token
    with that mint address (the mint addresses of the table are distinct,
    so the first match is the only one), and finds none exactly when no
    configured token has the address. *)
Theorem getTokenByMint_spec mint :
  (∀ token, getTokenByMint mint = Some token
            ↔ token ∈ Tokens.values ∧ Tokens.mintAddress token = mint)
  ∧ (getTokenByMint mint = None
     ↔ mint ∉ map (λ token, Tokens.mintAddress token) Tokens.values).
Proof.
  assert (∀ token, getTokenByMint mint = Some token
                   ↔ token ∈ Tokens.values ∧ Tokens.mintAddress token = mint)
    as Hsome.
  { intros token. split.
    - intros [Hin Heq]%find_some. split.
      + by apply list_elem_of_In.
      + by apply String.eqb_eq.
    - intros [Hin <-]. by apply getTokenByMint_own. }
  split; [exact Hsome|]. split.
  - intros Hnone (token & -> & Hin)%list_elem_of_fmap.
    rewrite getTokenByMint_own in Hnone; done.
  - intros Hmint. destruct (getTokenByMint mint) as [token|] eqn:Hfind; [|done].
    destruct (proj1 (Hsome token) eq_refl) as [Hin <-]. destruct Hmint.
    apply list_elem_of_fmap. eauto.
Qed.

(** Every mint address that a subscription asks for ([getAllTokenMints])
    is resolved by [getTokenByMint] to an enabled token, and the symbol of
    that token has an entry in every state of a monitor: an account update
    recorded for it is counted, not dropped. *)
Theorem subscribed_mints_are_tracked mint :
  mint ∈ getAllTokenMints →
  ∃ token,
    getTokenByMint mint = Some token
    ∧ Tokens.enabled token = true
    ∧ ∀ σ e, reachable σ →
        let σ' := recordTokenActivity e (Tokens.symbol token) account None σ in
        ∃ t, lookupToken σ.(heap) σ.(this).(metrics) (Tokens.symbol token)
               = Some t
             ∧ accountUpdates
                 <$> lookupToken σ'.(heap) σ'.(this).(metrics)
                       (Tokens.symbol token)
               = Some (JS.incr (accountUpdates t)).
Proof.
  intros Hmint.
  assert (∃ token, token ∈ Tokens.values ∧ Tokens.mintAddress token = mint
                   ∧ Tokens.enabled token = true) as (token & Hin & <- & Hen).
  { unfold getAllTokenMints, getEnabledTokens in Hmint.
    apply list_elem_of_fmap in Hmint as (token & -> & Hin).
    apply list_elem_of_In, filter_In in Hin as [Hin Hen].
    exists token. by rewrite list_elem_of_In. }
  exists token. split; [by apply getTokenByMint_own|]. split; [done|].
  intros σ e Hσ. cbv zeta.
  assert (Tokens.symbol token ∈ Tokens.symbols) as Hsym.
  { unfold Tokens.symbols. apply list_elem_of_fmap. eauto. }
  apply (reachable_lookupToken_is_Some σ _ Hσ) in Hsym as [t Ht].
  exists t. split; [done|].
  destruct (recordTokenActivity_entry e _ account None σ t Ht) as [-> _].
  reflexivity.
Qed.

Lemma subscribed_mints_are_tracked_witness :
  "So11111111111111111111111111111111111111112" ∈ getAllTokenMints
  ∧ ∃ token,
      getTokenByMint "So11111111111111111111111111111111111111112"
        = Some token
      ∧ Tokens.enabled token = true
      ∧ ∀ σ e, reachable σ →
          let σ' :=
            recordTokenActivity e (Tokens.symbol token) account None σ in
          ∃ t, lookupToken σ.(heap) σ.(this).(metrics) (Tokens.symbol token)
                 = Some t
               ∧ accountUpdates
                   <$> lookupToken σ'.(heap) σ'.(this).(metrics)
                         (Tokens.symbol token)
                 = Some (JS.incr (accountUpdates t)).
Proof.
  assert ("So11111111111111111111111111111111111111112" ∈ getAllTokenMints)
    as Hmint by (vm_compute; set_solver).
  split; [exact Hmint|].
  exact (subscribed_mints_are_tracked _ Hmint).
Defined.

End configured_tokens.

(** ** The dashboard *)

Section dashboard.
Local Open Scope float_scope.
Implicit Types (e : Env) (σ : state) (sym : string) (t : TokenMetrics).

(** The query reads [tokenMetrics[symbol]] off the live table after the
    system metrics were refreshed. *)
Lemma getTokenMetrics_None e sym σ :
  (PerformanceDashboard.getTokenMetrics e sym (Some σ)).1 = None
  ↔ truthy_value (getProperty σ.(heap) σ.(realm) σ.(this).(metrics) sym)
    = false.
Proof.
  unfold PerformanceDashboard.getTokenMetrics,
    PerformanceDashboard.getMetricsJSON, getPerformanceMonitor, getMetrics.
  change (getProperty (updateSystemMetrics e σ).(heap)
            (updateSystemMetrics e σ).(realm)
            (spread (updateSystemMetrics e σ).(this).(metrics)) sym)
    with (getProperty σ.(heap) σ.(realm) σ.(this).(metrics) sym).
  by destruct (truthy_value _).
Qed.

(** For a symbol with an entry, the query returns the fields of the
    entry. *)
Lemma getTokenMetrics_Some e sym σ t :
  lookupToken σ.(heap) σ.(this).(metrics) sym = Some t →
  PerformanceDashboard.getTokenMetrics e sym (Some σ)
  = (Some {| PerformanceDashboard.TokenDetail.symbol := Some (symbol t);
             PerformanceDashboard.TokenDetail.accountUpdates :=
               Some (accountUpdates t);
             PerformanceDashboard.TokenDetail.transactions :=
               Some (transactions t);
             PerformanceDashboard.TokenDetail.averageTransactionSize :=
               Some (averageTransactionSize t);
             PerformanceDashboard.TokenDetail.largestTransaction :=
               Some (largestTransaction t);
             PerformanceDashboard.TokenDetail.lastActivity :=
               Some (lastActivity t);
             PerformanceDashboard.TokenDetail.activityRate :=
               PerformanceDashboard.calculateActivityRate e σ.(realm)
                 (Entry t) |},
     Some (updateSystemMetrics e σ)).
Proof.
  intros Ht.
  unfold PerformanceDashboard.getTokenMetrics,
    PerformanceDashboard.getMetricsJSON, getPerformanceMonitor, getMetrics.
  change (getProperty (updateSystemMetrics e σ).(heap)
            (updateSystemMetrics e σ).(realm)
            (spread (updateSystemMetrics e σ).(this).(metrics)) sym)
    with (getProperty σ.(heap) σ.(realm) σ.(this).(metrics) sym).
  unfold getProperty. rewrite Ht. reflexivity.
Qed.

(** The query of a token returns what was recorded. Without a monitor it
    returns [null], and so it does, after any calls on a new monitor, for
    a symbol that is neither configured nor a name that the table inherits
    from [Object.prototype]. For [__proto__] and the names of the methods
    of [Object.prototype], which are not configured, it does not return
    [null]: it returns an object read off the built-in object found under
    that name, with [undefined] as symbol. For a configured symbol it
    returns the symbol with [0] incremented once per recorded account
    update as [accountUpdates] and once per recorded transaction as
    [transactions]. *)
Theorem getTokenMetrics_counts e0 cs e sym :
  let query :=
    (PerformanceDashboard.getTokenMetrics e sym
       (Some (run cs (new_PerformanceMonitor e0)))).1 in
  (PerformanceDashboard.getTokenMetrics e sym None).1 = None
  ∧ (sym ∉ Tokens.symbols → sym ∉ inherited_names → query = None)
  ∧ (sym ∈ "__proto__" :: method_names →
     (sym ∉ Tokens.symbols)
     ∧ ∃ d, query = Some d
            ∧ PerformanceDashboard.TokenDetail.symbol d = None)
  ∧ (sym ∈ Tokens.symbols →
     ∃ d, query = Some d
          ∧ PerformanceDashboard.TokenDetail.symbol d = Some sym
          ∧ PerformanceDashboard.TokenDetail.accountUpdates d
            = Some (Nat.iter (count_calls (is_activity sym account) cs)
                      JS.incr 0)
          ∧ PerformanceDashboard.TokenDetail.transactions d
            = Some (Nat.iter (count_calls (is_activity sym transaction) cs)
                      JS.incr 0)).
Proof.
  cbv zeta. split; [reflexivity|].
  set (σ := run cs (new_PerformanceMonitor e0)).
  assert (reachable σ) as Hσ by (by exists e0, cs).
  assert (Hown : sym ∉ Tokens.symbols →
                 lookupToken σ.(heap) σ.(this).(metrics) sym = None).
  { intros Hsym. apply eq_None_not_Some.
    by rewrite reachable_lookupToken_is_Some. }
  split; [|split].
  - intros Hsym Hname. apply getTokenMetrics_None.
    unfold getProperty.
    by rewrite (Hown Hsym), inheritedProperty_Undefined.
  - intros Hname.
    assert (Hsym : sym ∉ Tokens.symbols).
    { intros Hin. unfold Tokens.symbols, Tokens.values in Hin.
      simpl in Hin. rewrite !elem_of_cons, elem_of_nil in Hin.
      assert (Hd : ∀ s, bool_decide (s ∈ "__proto__" :: method_names) = false →
                        s ∈ "__proto__" :: method_names → False).
      { intros s Hs Hs'. by rewrite bool_decide_eq_true_2 in Hs. }
      destruct Hin as [->|[->|[->|[->|[->|[]]]]]];
        (eapply Hd; [|exact Hname]; reflexivity). }
    split; [exact Hsym|].
    unfold PerformanceDashboard.getTokenMetrics,
      PerformanceDashboard.getMetricsJSON, getPerformanceMonitor, getMetrics.
    change (getProperty (updateSystemMetrics e σ).(heap)
              (updateSystemMetrics e σ).(realm)
              (spread (updateSystemMetrics e σ).(this).(metrics)) sym)
      with (getProperty σ.(heap) σ.(realm) σ.(this).(metrics) sym).
    unfold getProperty. rewrite (Hown Hsym).
    assert (∃ o, inheritedProperty σ.(realm) sym = Builtin o) as [o ->].
    { unfold inheritedProperty.
      destruct (String.eqb sym "__proto__") eqn:Hproto; [by eexists|].
      apply String.eqb_neq in Hproto.
      apply elem_of_cons in Hname as [?|Hname]; [done|].
      rewrite (bool_decide_eq_true_2 _ Hname). by eexists. }
    eexists. split; reflexivity.
  - intros Hsym.
    destruct (new_lookupToken e0 sym Hsym) as (t0 & Ht0 & Hs0 & Ha0 & Hx0 & _).
    destruct (run_token_counters cs _ sym t0 Ht0) as (t & Ht & Hs & Ha & Hx).
    fold σ in Ht. rewrite (getTokenMetrics_Some _ _ _ _ Ht).
    eexists. split; [reflexivity|]. simpl.
    split; [congruence|]. by rewrite Ha, Hx, Ha0, Hx0.
Qed.

(** The activity rate does not divide by zero: queried at the clock
    reading of the token's last activity, it is [0] whatever the number
    of transactions. *)
Theorem activityRate_at_last_activity e sym type amount σ :
  reachable σ →
  sym ∈ Tokens.symbols →
  is_finite (Date_now e) = true →
  let σ' := recordTokenActivity e sym type amount σ in
  ∃ d, (PerformanceDashboard.getTokenMetrics e sym (Some σ')).1 = Some d
       ∧ PerformanceDashboard.TokenDetail.lastActivity d = Some (Date_now e)
       ∧ PerformanceDashboard.TokenDetail.activityRate d = 0.
Proof.
  intros Hσ Hsym Hfinite. cbv zeta.
  apply (reachable_lookupToken_is_Some σ sym Hσ) in Hsym as [t Ht].
  destruct (recordTokenActivity_entry e sym type amount σ t Ht) as [Ht' _].
  rewrite (getTokenMetrics_Some _ _ _ _ Ht').
  eexists. split; [reflexivity|]. simpl.
  assert (lastActivity (updateTokenMetric e type amount t) = Date_now e)
    as Hlast.
  { unfold updateTokenMetric. destruct type; [done|].
    destruct amount as [a|]; [|done].
    destruct (JS.truthy a); [|done]. by destruct (JS.gt _ _). }
  split; [by rewrite Hlast|].
  set (t' := updateTokenMetric e type amount t) in *.
  assert (∀ r, PerformanceDashboard.calculateActivityRate e r (Entry t')
               = if JS.strict_eq ((Date_now e - lastActivity t') / (1000 * 15)) 0
                 then 0
                 else transactions t' / ((Date_now e - lastActivity t') / (1000 * 15)))
    as -> by reflexivity.
  rewrite Hlast, (sub_diag_finite _ Hfinite). reflexivity.
Qed.

Lemma activityRate_at_last_activity_witness :
  let σ :=
    run [(env0, RecordTokenActivity "JUP" transaction (Some 12))]
        (new_PerformanceMonitor env0) in
  let σ' := recordTokenActivity env1 "JUP" transaction (Some 8) σ in
  reachable σ
  ∧ "JUP" ∈ Tokens.symbols
  ∧ is_finite (Date_now env1) = true
  ∧ ∃ d, (PerformanceDashboard.getTokenMetrics env1 "JUP" (Some σ')).1
           = Some d
         ∧ PerformanceDashboard.TokenDetail.lastActivity d
           = Some (Date_now env1)
         ∧ PerformanceDashboard.TokenDetail.activityRate d = 0.
Proof.
  cbv zeta.
  assert (reachable
            (run [(env0, RecordTokenActivity "JUP" transaction (Some 12))]
                 (new_PerformanceMonitor env0))) as Hσ.
  { by exists env0, [(env0, RecordTokenActivity "JUP" transaction (Some 12))]. }
  assert ("JUP" ∈ Tokens.symbols) as Hsym by (vm_compute; set_solver).
  split; [exact Hσ|]. split; [exact Hsym|]. split; [reflexivity|].
  exact (activityRate_at_last_activity env1 "JUP" transaction (Some 8) _
           Hσ Hsym eq_refl).
Defined.

(** Only [recordMessageProcessed] writes the message rate. *)
Lemma step_messagesPerSecond σ c :
  is_RecordMessageProcessed c.2 = false →
  messagesPerSecond (step σ c).(this).(metrics)
  = messagesPerSecond σ.(this).(metrics).
Proof.
  destruct c as [e [id op|id| |latency success|s ty amt| | |success| | | | | ]];
    simpl; intros Hc;
    rewrite ?getHealthStatus_state, ?printPerformanceReport_state;
    try reflexivity.
  - unfold endTimer. by destruct (_ !! _).
  - discriminate.
  - by destruct success.
  - by rewrite recordTokenActivity_this.
  - by destruct success.
  - unfold stop. by destruct (intervalId _).
Qed.

Lemma run_messagesPerSecond cs σ :
  Forall (λ c : Env * call, is_RecordMessageProcessed c.2 = false) cs →
  messagesPerSecond (run cs σ).(this).(metrics)
  = messagesPerSecond σ.(this).(metrics).
Proof.
  intros Hcs. revert σ.
  induction Hcs as [|c cs Hc _ IH]; intros σ; [done|].
  simpl. by rewrite IH, step_messagesPerSecond.
Qed.

Lemma elem_of_push_if cond x y issues :
  y ∈ issues → y ∈ PerformanceDashboard.push_if cond x issues.
Proof.
  unfold PerformanceDashboard.push_if. destruct cond; [|done].
  intros Hy. apply elem_of_app. by left.
Qed.

(** Until the first message is recorded the message rate is [0], below
    the bound 0.5: whatever else was called, the degradation check of the
    dashboard answers [degraded] and lists the low throughput. *)
Theorem degraded_before_first_message e0 cs e :
  Forall (λ c : Env * call, is_RecordMessageProcessed c.2 = false) cs →
  let r :=
    (PerformanceDashboard.checkPerformanceDegradation e
       (Some (run cs (new_PerformanceMonitor e0)))).1 in
  PerformanceDashboard.Degradation.degraded r = true
  ∧ PerformanceDashboard.VeryLowMessageThroughput
    ∈ PerformanceDashboard.Degradation.issues r.
Proof.
  intros Hcs. cbv zeta.
  pose proof (run_messagesPerSecond cs (new_PerformanceMonitor e0) Hcs) as Hmps.
  set (σ := run cs (new_PerformanceMonitor e0)) in *.
  unfold PerformanceDashboard.checkPerformanceDegradation,
    PerformanceDashboard.getHealthJSON, PerformanceDashboard.getMetricsJSON,
    getPerformanceMonitor.
  rewrite (surjective_pairing (getHealthStatus e σ)), getHealthStatus_state.
  unfold getMetrics. cbv zeta. cbn [fst snd].
  change (messagesPerSecond
            (spread (updateSystemMetrics e
                       (updateSystemMetrics e σ)).(this).(metrics)))
    with (messagesPerSecond σ.(this).(metrics)).
  rewrite Hmps.
  change (messagesPerSecond (new_PerformanceMonitor e0).(this).(metrics))
    with 0.
  change (JS.lt 0 0.5) with true.
  assert (∀ issues : list PerformanceDashboard.DegradationIssue,
            PerformanceDashboard.VeryLowMessageThroughput ∈ issues →
            negb (length issues =? 0)%nat = true) as Hlen.
  { intros [|x issues] Hin; [by apply elem_of_nil in Hin|done]. }
  assert (PerformanceDashboard.VeryLowMessageThroughput
          ∈ PerformanceDashboard.push_if true
              PerformanceDashboard.VeryLowMessageThroughput [])
    as Hin by apply list_elem_of_here.
  split.
  - rewrite Hlen; [apply orb_true_r|]. by do 3 apply elem_of_push_if.
  - apply elem_of_app. right. by do 3 apply elem_of_push_if.
Qed.

Lemma degraded_before_first_message_witness :
  let cs :=
    [(env0, StartTimer "msg-1" "message_processing");
     (env0, RecordTokenActivity "USDT" account None);
     (env1, RecordDatabaseOperation 4 true);
     (env1, RecordStreamError);
     (env1, EndTimer "msg-1")] in
  let r :=
    (PerformanceDashboard.checkPerformanceDegradation env1
       (Some (run cs (new_PerformanceMonitor env0)))).1 in
  Forall (λ c : Env * call, is_RecordMessageProcessed c.2 = false) cs
  ∧ PerformanceDashboard.Degradation.degraded r = true
  ∧ PerformanceDashboard.VeryLowMessageThroughput
    ∈ PerformanceDashboard.Degradation.issues r.
Proof.
  cbv zeta.
  assert (Forall (λ c : Env * call, is_RecordMessageProcessed c.2 = false)
            [(env0, StartTimer "msg-1" "message_processing");
             (env0, RecordTokenActivity "USDT" account None);
             (env1, RecordDatabaseOperation 4 true);
             (env1, RecordStreamError);
             (env1, EndTimer "msg-1")]) as Hcs.
  { repeat constructor. }
  split; [exact Hcs|].
  exact (degraded_before_first_message env0 _ env1 Hcs).
Defined.

End dashboard.

(** ** The plain counters *)

Section plain_counters.
Local Open Scope float_scope.
Implicit Types (e : Env) (σ : state) (m : PerformanceMetrics).

(** A field that every call either increments or leaves alone holds its
    initial value incremented once per incrementing call. *)
Lemma run_counter (f : PerformanceMetrics → number) (p : call → bool) :
  (∀ σ c, f (step σ c).(this).(metrics)
          = if p c.2 then JS.incr (f σ.(this).(metrics))
            else f σ.(this).(metrics)) →
  ∀ cs σ, f (run cs σ).(this).(metrics)
          = Nat.iter (count_calls p cs) JS.incr (f σ.(this).(metrics)).
Proof.
  intros Hstep cs. induction cs as [|c cs IH]; intros σ; [done|].
  simpl. rewrite IH, Hstep, count_calls_cons.
  destruct (p c.2); [|done].
  symmetry. apply (Nat.iter_succ_r _ JS.incr).
Qed.

(** The case analysis of a call, with the read calls reduced to
    [updateSystemMetrics]. *)
Ltac call_cases c :=
  destruct c as [? [? ?|?| |? [] |? ? ?| | |[] | | | | | ]]; simpl;
  rewrite ?getHealthStatus_state, ?printPerformanceReport_state;
  try reflexivity;
  first [ by (unfold endTimer; destruct (_ !! _))
        | by rewrite recordTokenActivity_this
        | by (unfold stop; destruct (intervalId _)) ].

Lemma step_totalMessagesProcessed σ c :
  totalMessagesProcessed (step σ c).(this).(metrics)
  = if is_RecordMessageProcessed c.2
    then JS.incr (totalMessagesProcessed σ.(this).(metrics))
    else totalMessagesProcessed σ.(this).(metrics).
Proof. call_cases c. Qed.

Lemma step_databaseOperationsPerSecond σ c :
  databaseOperationsPerSecond (step σ c).(this).(metrics)
  = if is_success c.2
    then JS.incr (databaseOperationsPerSecond σ.(this).(metrics))
    else databaseOperationsPerSecond σ.(this).(metrics).
Proof. call_cases c. Qed.

Lemma step_failedDatabaseOperations σ c :
  failedDatabaseOperations (step σ c).(this).(metrics)
  = if is_failed_database_operation c.2
    then JS.incr (failedDatabaseOperations σ.(this).(metrics))
    else failedDatabaseOperations σ.(this).(metrics).
Proof. call_cases c. Qed.

Lemma step_streamErrors σ c :
  streamErrors (step σ c).(this).(metrics)
  = if is_RecordStreamError c.2
    then JS.incr (streamErrors σ.(this).(metrics))
    else streamErrors σ.(this).(metrics).
Proof. call_cases c. Qed.

Lemma step_reconnectionCount σ c :
  reconnectionCount (step σ c).(this).(metrics)
  = if is_RecordReconnection c.2
    then JS.incr (reconnectionCount σ.(this).(metrics))
    else reconnectionCount σ.(this).(metrics).
Proof. call_cases c. Qed.

Lemma step_alertsSent σ c :
  alertsSent (step σ c).(this).(metrics)
  = if is_sent_alert c.2
    then JS.incr (alertsSent σ.(this).(metrics))
    else alertsSent σ.(this).(metrics).
Proof. call_cases c. Qed.

Lemma step_alertsFailedToSend_counts σ c :
  alertsFailedToSend (step σ c).(this).(metrics)
  = if is_failed_alert c.2
    then JS.incr (alertsFailedToSend σ.(this).(metrics))
    else alertsFailedToSend σ.(this).(metrics).
Proof. call_cases c. Qed.

(** Every counter counts its own events and nothing else: after any calls
    on a new monitor, each of the seven counters is [0] incremented once
    per call that records its event: messages; successful and failed
    database operations; stream errors; reconnections; alerts sent and
    alerts that failed. *)
Theorem counters_count e0 cs :
  let m := (run cs (new_PerformanceMonitor e0)).(this).(metrics) in
  let count p := Nat.iter (count_calls p cs) JS.incr 0 in
  totalMessagesProcessed m = count is_RecordMessageProcessed
  ∧ databaseOperationsPerSecond m = count is_success
  ∧ failedDatabaseOperations m = count is_failed_database_operation
  ∧ streamErrors m = count is_RecordStreamError
  ∧ reconnectionCount m = count is_RecordReconnection
  ∧ alertsSent m = count is_sent_alert
  ∧ alertsFailedToSend m = count is_failed_alert.
Proof.
  cbv zeta. split_and!.
  - apply (run_counter totalMessagesProcessed _ step_totalMessagesProcessed).
  - apply (run_counter databaseOperationsPerSecond _
             step_databaseOperationsPerSecond).
  - apply (run_counter failedDatabaseOperations _
             step_failedDatabaseOperations).
  - apply (run_counter streamErrors _ step_streamErrors).
  - apply (run_counter reconnectionCount _ step_reconnectionCount).
  - apply (run_counter alertsSent _ step_alertsSent).
  - apply (run_counter alertsFailedToSend _ step_alertsFailedToSend_counts).
Qed.

(** Three successes and ten failures, as counted. *)
Example counters_count_database :
  let cs :=
    [(env0, RecordDatabaseOperation 100 true);
     (env0, RecordDatabaseOperation 200 true);
     (env0, RecordDatabaseOperation 300 true)]
    ++ replicate 10 (env1, RecordDatabaseOperation 1 false) in
  let σ := run cs (new_PerformanceMonitor env0) in
  databaseOperationsPerSecond σ.(this).(metrics) = 3
  ∧ failedDatabaseOperations σ.(this).(metrics) = 10
  ∧ database (services (getHealthStatus env1 σ).1) = critical.
Proof. cbv zeta. repeat split; reflexivity. Qed.

End plain_counters.

(** ** The built-in objects *)

Section builtin_objects.
Local Open Scope float_scope.
Implicit Types (e : Env) (σ : state) (r : Realm) (o : BuiltinObject).

Lemma div_nan_r x : x / nan = nan.
Proof.
  apply Prim2SF_inj. rewrite FloatAxioms.div_spec.
  change (Prim2SF nan) with S754_nan.
  by destruct (Prim2SF x) as [[]|[]| |[] ? ?].
Qed.

Lemma gt_nan_r x : JS.gt x nan = false.
Proof.
  unfold JS.gt. rewrite FloatAxioms.ltb_spec.
  by change (Prim2SF nan) with S754_nan.
Qed.

(** Writing on a function or on the inherited date leaves
    [Object.prototype] as it is. *)
Lemma updateBuiltin_Object_prototype e type amount o r :
  o ≠ ObjectPrototype →
  Object_prototype (updateBuiltin e type amount o r) = Object_prototype r.
Proof.
  intros Ho. unfold updateBuiltin.
  destruct o as [|name|]; [done| |].
  all: destruct type; [reflexivity|].
  all: destruct amount as [a|]; [|reflexivity].
  all: destruct (JS.truthy a); [|reflexivity].
  all: by destruct (JS.gt a _).
Qed.

Lemma updateBuiltin_ObjectPrototype e type amount r :
  inherited_numbers_nan r →
  inherited_numbers_nan (updateBuiltin e type amount ObjectPrototype r).
Proof.
  destruct r as [[la au tx avg lg] fns d].
  unfold inherited_numbers_nan, absent_or_nan. simpl.
  intros (Hau & Htx & Havg & ->).
  unfold updateBuiltin.
  destruct type.
  { simpl. repeat split; try done.
    right. by destruct Hau as [->| ->]. }
  destruct amount as [a|].
  2: { simpl. repeat split; try done.
       right. by destruct Htx as [->| ->]. }
  destruct (JS.truthy a).
  2: { simpl. repeat split; try done.
       right. by destruct Htx as [->| ->]. }
  destruct Htx as [->| ->], Havg as [->| ->];
    cbn -[JS.gt JS.incr PrimFloat.div];
    rewrite gt_nan_r; change (JS.incr nan) with nan; rewrite div_nan_r;
    simpl; repeat split; try done; by right.
Qed.

(** A number found in [Object.prototype] is NaN, which is falsy. *)
Lemma inheritedProperty_Number r name n :
  inherited_numbers_nan r →
  inheritedProperty r name = Number n → JS.truthy n = false.
Proof.
  intros (Hau & Htx & Havg & Hlg). unfold inheritedProperty, number_value.
  rewrite Hlg.
  destruct Hau as [->| ->], Htx as [->| ->], Havg as [->| ->];
    repeat match goal with
    | |- context [if ?b then _ else _] => destruct b
    end;
    try discriminate;
    try (destruct (Bag.lastActivity _); discriminate);
    by intros [= <-].
Qed.

Lemma recordTokenActivity_builtins e symbol type amount σ :
  inherited_numbers_nan σ.(realm) →
  inherited_numbers_nan (recordTokenActivity e symbol type amount σ).(realm)
  ∧ (recordTokenActivity e symbol type amount σ).(thrown) = σ.(thrown).
Proof.
  intros Hr. unfold recordTokenActivity, getProperty.
  destruct (lookupToken _ _ _) as [t|]; [done|].
  destruct (inheritedProperty _ _) as [ |t|o|n] eqn:Hv; try done.
  - split; [|done]. simpl.
    destruct (decide (o = ObjectPrototype)) as [->|Ho].
    + by apply updateBuiltin_ObjectPrototype.
    + unfold inherited_numbers_nan.
      by rewrite (updateBuiltin_Object_prototype _ _ _ _ _ Ho).
  - by rewrite (inheritedProperty_Number _ _ _ Hr Hv).
Qed.

Lemma step_builtins σ c :
  inherited_numbers_nan σ.(realm) →
  inherited_numbers_nan (step σ c).(realm)
  ∧ (step σ c).(thrown) = σ.(thrown).
Proof.
  intros Hr.
  destruct c as [e [id op|id| |latency success|sym ty amt| | |success| | | | | ]];
    simpl;
    rewrite ?getHealthStatus_state, ?printPerformanceReport_state;
    try done.
  - unfold endTimer. by destruct (_ !! _).
  - by destruct success.
  - by apply recordTokenActivity_builtins.
  - by destruct success.
  - unfold stop. by destruct (intervalId _).
Qed.

Lemma run_builtins cs σ :
  inherited_numbers_nan σ.(realm) →
  inherited_numbers_nan (run cs σ).(realm)
  ∧ (run cs σ).(thrown) = σ.(thrown).
Proof.
  revert σ. induction cs as [|c cs IH]; intros σ Hr; [done|].
  simpl. destruct (step_builtins σ c Hr) as [Hr' <-]. by apply IH.
Qed.

(** No call of a monitor throws: the numbers that [recordTokenActivity]
    leaves in [Object.prototype] are NaN, so that a later call which
    finds one of them under its symbol takes the early return. Recording
    activity under the name of one of the four number-valued properties
    changes nothing. *)
Theorem recordTokenActivity_never_throws σ :
  reachable σ →
  σ.(thrown) = []
  ∧ inherited_numbers_nan σ.(realm)
  ∧ ∀ e symbol type amount,
      symbol ∈ ["accountUpdates"; "transactions"; "averageTransactionSize";
                "largestTransaction"] →
      recordTokenActivity e symbol type amount σ = σ.
Proof.
  intros Hσ. pose proof Hσ as (e0 & cs & ->).
  set (σ := run cs (new_PerformanceMonitor e0)) in *.
  destruct (run_builtins cs (new_PerformanceMonitor e0)) as [Hr Hthrown].
  { unfold inherited_numbers_nan, absent_or_nan. simpl.
    repeat split; by left. }
  fold σ in Hr, Hthrown.
  split; [by rewrite Hthrown|]. split; [exact Hr|].
  intros e symbol type amount Hsym.
  assert (lookupToken σ.(heap) σ.(this).(metrics) symbol = None) as Hown.
  { apply eq_None_not_Some. rewrite (reachable_lookupToken_is_Some _ _ Hσ).
    assert (Hd : ∀ s, bool_decide (s ∈ Tokens.symbols) = false →
                      s ∈ Tokens.symbols → False).
    { intros s Hs Hs'. by rewrite bool_decide_eq_true_2 in Hs. }
    intros Hin. revert Hsym. rewrite !elem_of_cons, elem_of_nil.
    intros [->|[->|[->|[->|[]]]]];
      (eapply Hd; [|exact Hin]; reflexivity). }
  unfold recordTokenActivity, getProperty. rewrite Hown.
  destruct (inheritedProperty _ _) as [ |t|o|n] eqn:Hv; try done.
  - by destruct (inheritedProperty_not_Entry _ _ _ Hv).
  - exfalso. revert Hsym Hv. rewrite !elem_of_cons, elem_of_nil.
    unfold inheritedProperty.
    intros [->|[->|[->|[->|[]]]]]; simpl;
      by destruct (_ (Object_prototype _)).
  - by rewrite (inheritedProperty_Number _ _ _ Hr Hv).
Qed.

Lemma recordTokenActivity_never_throws_witness :
  let σ :=
    run [(env0, RecordTokenActivity "__proto__" transaction (Some 5));
         (env1, RecordTokenActivity "SOL" transaction (Some 5))]
        (new_PerformanceMonitor env0) in
  reachable σ
  ∧ Bag.transactions (Object_prototype σ.(realm)) = Some nan
  ∧ σ.(thrown) = []
  ∧ recordTokenActivity env1 "transactions" transaction (Some 5) σ = σ.
Proof.
  cbv zeta.
  assert (reachable
            (run [(env0, RecordTokenActivity "__proto__" transaction (Some 5));
                  (env1, RecordTokenActivity "SOL" transaction (Some 5))]
                 (new_PerformanceMonitor env0))) as Hσ.
  { by eexists env0, _. }
  split; [exact Hσ|]. split; [reflexivity|].
  destruct (recordTokenActivity_never_throws _ Hσ) as (Hthrown & _ & Hnames).
  split; [exact Hthrown|].
  apply Hnames. by repeat constructor.
Defined.

End builtin_objects.
